(** * Line classification helpers of ApexDox: [src/common/Utils.ts]

    A shallow embedding of the static helpers of class [Utils]
    ([isClassOrInterface], [isEnum], [stripAnnotations], [shouldSkipLine],
    [getScope], [previousWord]) together with the part of the JavaScript
    string and regular-expression semantics they rely on.

    Strings.  A JavaScript string is a sequence of UTF-16 code units.  The
    development covers the code units below 256 (Latin-1), which is the
    range of [Ascii.ascii]; a line is a [string].  Within that range
    [toLowerCase], [trim] and the classes [\w], [\s] and [.] are modelled
    exactly as ECMAScript defines them.  Beyond it [toLowerCase] is no
    longer a map on code units that respects [\w]: U+212A (KELVIN SIGN) is
    not a word character and its lower case [k] is one, and U+0130 becomes
    two code units.  Statements that compare a line with its lower-cased form
    (X12, X13) are therefore statements about lines in the Latin-1 range
    and say so.

    Numbers.  [searchIdx] of [previousWord] is an integer-valued number and
    is modelled as [Z]. *)

From Stdlib Require Import Bool Arith Lia List ZArith NArith Ascii String.
Import ListNotations.

Set Implicit Arguments.

Local Open Scope string_scope.
Local Open Scope bool_scope.

(* ------------------------------------------------------------------ *)
(** ** Code units *)

Module JsChar.

Definition code (a : ascii) : N := N_of_ascii a.

Definition between (lo hi : N) (a : ascii) : bool :=
  (lo <=? code a)%N && (code a <=? hi)%N.

(** [WhiteSpace] and [LineTerminator] code units below 256: TAB, LF, VT,
    FF, CR, SP and NBSP.  This is what [String.prototype.trim] removes and
    what [\s] matches. *)
Definition isSpace (a : ascii) : bool :=
  between 9 13 a || (code a =? 32)%N || (code a =? 160)%N.

(** [\w] without the [u] flag: [[A-Za-z0-9_]]. *)
Definition isWord (a : ascii) : bool :=
  between 97 122 a || between 65 90 a || between 48 57 a || (code a =? 95)%N.

(** Line terminators below 256 (LF and CR); [.] matches anything else. *)
Definition isLineTerminator (a : ascii) : bool :=
  (code a =? 10)%N || (code a =? 13)%N.

Definition isDot (a : ascii) : bool := negb (isLineTerminator a).

(** [toLowerCase] on one code unit: A-Z and the Latin-1 capitals
    U+00C0..U+00DE (without the multiplication sign U+00D7). *)
Definition toLower (a : ascii) : ascii :=
  if between 65 90 a || between 192 214 a || between 216 222 a
  then ascii_of_N (code a + 32) else a.

(** [Canonicalize] of a case-insensitive, non-unicode regular expression,
    restricted to what a pattern letter of [A-Za-z] can be compared with:
    a code unit of 128 or more never canonicalizes to one below 128. *)
Definition canonicalize (a : ascii) : ascii :=
  if between 97 122 a then ascii_of_N (code a - 32) else a.


End JsChar.
Import JsChar.

(* ------------------------------------------------------------------ *)
(** ** String primitives *)

Module JsString.

Fixpoint toLowerCase (s : string) : string :=
  match s with
  | EmptyString => EmptyString
  | String a s' => String (toLower a) (toLowerCase s')
  end.

Fixpoint trimStart (s : string) : string :=
  match s with
  | EmptyString => EmptyString
  | String a s' => if isSpace a then trimStart s' else s
  end.

Fixpoint trimEnd (s : string) : string :=
  match s with
  | EmptyString => EmptyString
  | String a s' =>
      match trimEnd s' with
      | EmptyString => if isSpace a then EmptyString else String a EmptyString
      | t => String a t
      end
  end.

Definition trim (s : string) : string := trimEnd (trimStart s).

(** [s.startsWith(p)] *)
Definition startsWith (s p : string) : bool := String.prefix p s.

(** [s.includes(p)] *)
Fixpoint includes (s p : string) : bool :=
  startsWith s p ||
  match s with
  | EmptyString => false
  | String _ s' => includes s' p
  end.

(** [s.charAt(i)] for [0 <= i]; [None] stands for the empty string that
    [charAt] returns out of range. *)
Definition charAt (s : string) (i : nat) : option ascii := String.get i s.




(** [s.split('.')] for a one-character separator. *)
Fixpoint split (sep : ascii) (s : string) : list string :=
  match s with
  | EmptyString => [EmptyString]
  | String a s' =>
      if Ascii.eqb a sep then EmptyString :: split sep s'
      else match split sep s' with
           | [] => [String a EmptyString]
           | w :: ws => String a w :: ws
           end
  end.

(** JavaScript truthiness of a string. *)
Definition truthy (s : string) : bool :=
  match s with EmptyString => false | _ => true end.

End JsString.
Import JsString.

(* ------------------------------------------------------------------ *)
(** ** Regular expressions

    The constructs that occur in the patterns of [Utils.ts], with the
    backtracking semantics of ECMAScript: alternatives are tried left to
    right, quantifiers are greedy, and an iteration of [*] that consumes
    nothing is rejected. *)

Module Regex.

Inductive regex : Type :=
| Eps : regex                          (* the empty pattern *)
| Class : (ascii -> bool) -> regex     (* one code unit of a class *)
| Seq : regex -> regex -> regex
| Alt : regex -> regex -> regex        (* r1|r2 *)
| Opt : regex -> regex                 (* r? *)
| Star : regex -> regex                (* r* *)
| Bol : regex                          (* ^ without the m flag *)
| WordB : regex.                       (* \b *)

Definition Plus (r : regex) : regex := Seq r (Star r).

Definition chr (c : ascii) : regex := Class (Ascii.eqb c).

(** A pattern character under the [i] flag. *)
Definition chr_i (c : ascii) : regex :=
  Class (fun a => Ascii.eqb (canonicalize a) (canonicalize c)).

(** A run of literal characters. *)
Fixpoint lit (w : string) : regex :=
  match w with
  | EmptyString => Eps
  | String c w' => Seq (chr c) (lit w')
  end.

Fixpoint lit_i (w : string) : regex :=
  match w with
  | EmptyString => Eps
  | String c w' => Seq (chr_i c) (lit_i w')
  end.

Definition dot : regex := Class isDot.
Definition ws : regex := Class isSpace.
Definition wordc : regex := Class isWord.

(** The matcher state is the code unit before the current position
    ([None] at the start of the input) and the rest of the input. *)
Definition isWordOpt (o : option ascii) : bool :=
  match o with Some a => isWord a | None => false end.

Definition head (s : string) : option ascii :=
  match s with EmptyString => None | String a _ => Some a end.

Definition atBoundary (prev : option ascii) (s : string) : bool :=
  xorb (isWordOpt prev) (isWordOpt (head s)).

Section Matcher.
Variable R : Type.

Definition cont : Type := option ascii -> string -> option R.

Definition orElse (x y : option R) : option R :=
  match x with Some _ => x | None => y end.

(** Greedy iteration of [m]; [fuel] bounds the number of iterations and
    [String.length s + 1] is always enough because every iteration has to
    consume input. *)
Fixpoint iterate (m : option ascii -> string -> cont -> option R)
         (fuel : nat) (prev : option ascii) (s : string) (k : cont)
  : option R :=
  match fuel with
  | O => k prev s
  | S fuel' =>
      orElse
        (m prev s (fun prev' s' =>
                     if Nat.ltb (String.length s') (String.length s)
                     then iterate m fuel' prev' s' k
                     else None))
        (k prev s)
  end.

Fixpoint rmatch (r : regex) (prev : option ascii) (s : string) (k : cont)
  : option R :=
  match r with
  | Eps => k prev s
  | Class p =>
      match s with
      | String a s' => if p a then k (Some a) s' else None
      | EmptyString => None
      end
  | Seq r1 r2 => rmatch r1 prev s (fun prev' s' => rmatch r2 prev' s' k)
  | Alt r1 r2 => orElse (rmatch r1 prev s k) (rmatch r2 prev s k)
  | Opt r1 => orElse (rmatch r1 prev s k) (k prev s)
  | Star r1 => iterate (rmatch r1) (S (String.length s)) prev s k
  | Bol => match prev with None => k prev s | Some _ => None end
  | WordB => if atBoundary prev s then k prev s else None
  end.
End Matcher.

(** The first match of [r] at the current position: what is left of the
    input after it. *)
Definition matchHere (r : regex) (prev : option ascii) (s : string)
  : option string :=
  rmatch r prev s (fun _ s' => Some s').

(** The leftmost match: the text before it and the text after it. *)
Fixpoint search (r : regex) (prev : option ascii) (s : string)
  : option (string * string) :=
  match matchHere r prev s with
  | Some rest => Some (EmptyString, rest)
  | None =>
      match s with
      | EmptyString => None
      | String a s' =>
          match search r (Some a) s' with
          | Some (pre, rest) => Some (String a pre, rest)
          | None => None
          end
      end
  end.

(** [r.test(s)] for a pattern without the [g] and [y] flags. *)
Definition test (r : regex) (s : string) : bool :=
  match search r None s with Some _ => true | None => false end.

(** [s.replace(r, '')] for a pattern without the [g] flag. *)
Definition replaceFirst (r : regex) (s : string) : string :=
  match search r None s with
  | Some (pre, rest) => pre ++ rest
  | None => s
  end.

End Regex.
Import Regex.

(* ------------------------------------------------------------------ *)
(** ** [engine/ApexDoc]: what [Utils] reads from it *)

Module ApexDoc.

(** Modelled from the spec: the constants [ApexDoc.ENUM], [ApexDoc.CLASS]
    and [ApexDoc.INTERFACE] are declared in [engine/ApexDoc.ts], which is
    not among the sources; the specification calls them the enum, class and
    interface declaration keywords. *)
Definition ENUM : string := "enum".
Definition CLASS : string := "class".
Definition INTERFACE : string := "interface".

(** [ApexDoc.config.scope], the ordered scope configuration, is an argument
    of every function that reads it. *)
Definition scopeConfig : Type := list string.

End ApexDoc.

(** [models/ClassModel]: the two members [shouldSkipLine] reads. *)
Record ClassModel : Type := mkClassModel {
  name : string;
  isInterface : bool
}.

(* ------------------------------------------------------------------ *)
(** ** [common/Utils] *)

(** [last]: the last element of an array, written with the length test of
    the source; [None] is the [undefined] of an empty array. *)
Definition last {T : Type} (arr : list T) : option T :=
  if Nat.ltb 1 (List.length arr)
  then nth_error arr (List.length arr - 1)
  else nth_error arr 0.

Module Utils.

Definition PRIVATE : string := "private".
Definition TEST_METHOD : string := "testmethod".
Definition COLLECTIONS : list string := ["list"; "set"; "map"].
Definition KEYWORDS : list string :=
  ["abstract"; "final"; "virtual"; "override"; "void"; "blob"; "boolean";
   "date"; "datetime"; "decimal"; "double"; "id"; "integer"; "long";
   "object"; "string"; "time"].

(** [/.*\bclass\b.*/] *)
Definition classRe : regex :=
  Seq (Star dot) (Seq WordB (Seq (lit "class") (Seq WordB (Star dot)))).

(** [/\s?\binterface\s/i] *)
Definition interfaceRe : regex :=
  Seq (Opt ws) (Seq WordB (Seq (lit_i "interface") ws)).

Definition isClassOrInterface (line : string) : bool :=
  if test classRe (toLowerCase line) || test interfaceRe (toLowerCase line)
  then true
  else false.

(** [/@\w+\s*(\([\w=.*''/\s]+\))?/] *)
Definition annotationArg (a : ascii) : bool :=
  isWord a || Ascii.eqb a "="%char || Ascii.eqb a "."%char ||
  Ascii.eqb a "*"%char || Ascii.eqb a "'"%char || Ascii.eqb a "'"%char ||
  Ascii.eqb a "/"%char || isSpace a.

Definition annotationRe : regex :=
  Seq (chr "@"%char)
      (Seq (Plus wordc)
           (Seq (Star ws)
                (Opt (Seq (chr "("%char)
                          (Seq (Plus (Class annotationArg))
                               (chr ")"%char)))))).

(** The loop condition [line && line.trim().startsWith('@')]. *)
Definition stripCond (line : string) : bool :=
  truthy line && startsWith (trim line) "@".

(** The assignment of the loop body. *)
Definition stripStep (line : string) : string :=
  replaceFirst annotationRe (trim line).

(** The [while] loop of [stripAnnotations], started with the counter at [i].
    Every unfolding of the loop uses one unit of [fuel]; [None] means that
    the fuel ran out before the loop was left. *)
Fixpoint stripLoop (fuel : nat) (line : string) (i : nat) : option string :=
  match fuel with
  | O => None
  | S fuel' =>
      if stripCond line then
        let line' := stripStep line in
        if Nat.leb 100 i
        then Some line'              (* break *)
        else stripLoop fuel' line' (S i)
      else Some line
  end.

(** The counter starts at 0 and the loop is left when it is 100 at the
    latest, so 101 unfoldings are enough (lemma [stripLoop_fuel]). *)
Definition stripAnnotations (line : string) : string :=
  match stripLoop 101 line 0 with
  | Some r => r
  | None => line
  end.

(** [/^(global\s+|public\s+|private\s+)?enum\b.*/] *)
Definition enumRe : regex :=
  Seq Bol
      (Seq (Opt (Alt (Seq (lit "global") (Plus ws))
                     (Alt (Seq (lit "public") (Plus ws))
                          (Seq (lit "private") (Plus ws)))))
           (Seq (lit "enum") (Seq WordB (Star dot)))).

Definition isEnum (line : string) : bool :=
  let line := stripAnnotations line in
  if test enumRe line then true else false.

(** One pass of the body of [for (let scope of ApexDoc.config.scope)]:
    the line is normalised again on every pass. *)
Definition normalize (line : string) : string :=
  trim (toLowerCase (stripAnnotations line)).

(** The [for] loop of [getScope]: [inl scope] is an early [return scope],
    [inr line] is the value of the variable [line] when the loop ends. *)
Fixpoint scopeLoop (scopes : list string) (line : string)
  : string + string :=
  match scopes with
  | [] => inr line
  | scope :: rest =>
      let line := normalize line in
      let scope := toLowerCase scope in
      if startsWith line (scope ++ " ") then inl scope
      else if String.eqb scope TEST_METHOD &&
              startsWith line ("static " ++ TEST_METHOD ++ " ")
           then inl scope
           else scopeLoop rest line
  end.

(** [new RegExp('^' + collection + '<.+>\\s.*')] *)
Definition collectionRe (collection : string) : regex :=
  Seq Bol
      (Seq (lit collection)
           (Seq (chr "<"%char)
                (Seq (Plus dot) (Seq (chr ">"%char) (Seq ws (Star dot)))))).

(** The body of [if (ApexDoc.config.scope.includes(this.PRIVATE))]. *)
Definition implicitPrivate (line : string) : option string :=
  if startsWith line "static " &&
     negb (includes line (" " ++ TEST_METHOD ++ " "))
  then Some PRIVATE
  else if existsb (fun keyword =>
                     startsWith line (keyword ++ " ") && includes line "(")
                  KEYWORDS
  then Some PRIVATE
  else if existsb (fun collection =>
                     test (collectionRe collection) line && includes line "(")
                  COLLECTIONS
  then Some PRIVATE
  else None.

(** [getScope]; [None] is the [undefined] a function returns when it falls
    off its end. *)
Definition getScope (config : ApexDoc.scopeConfig) (line : string)
  : option string :=
  match scopeLoop config line with
  | inl scope => Some scope
  | inr line =>
      if existsb (String.eqb PRIVATE) config
      then implicitPrivate line
      else None
  end.

(** [!x] for the result of [getScope]: [undefined] and the empty string are
    the falsy values. *)
Definition falsy (r : option string) : bool :=
  match r with
  | None => true
  | Some s => negb (truthy s)
  end.

(** [new RegExp('\\b' + className + '\\s*\\(')].  The code splices the class
    name into the pattern text; the model reads it as a run of literal
    characters, which is the same pattern exactly when the name is an
    identifier (word characters only).  A name with pattern characters is
    read as a pattern, or rejected, by [RegExp] and is outside the model:
    the statement that a line is kept through this pattern (X22) assumes
    an identifier. *)
Definition constructorRe (className : string) : regex :=
  Seq WordB (Seq (lit className) (Seq (Star ws) (chr "("%char))).

(** [cModel && cModel.name.split('.') || ['']] followed by [last]. *)
Definition classNameOf (cModel : option ClassModel) : string :=
  let classNameParts :=
    match cModel with
    | Some m => split "."%char (name m)
    | None => [""]
    end in
  match last classNameParts with
  | Some w => w
  | None => ""
  end.

Definition shouldSkipLine (config : ApexDoc.scopeConfig) (line : string)
           (cModel : option ClassModel) : bool :=
  let className := classNameOf cModel in
  if falsy (getScope config line) &&
     negb (startsWith (toLowerCase line) (ApexDoc.ENUM ++ " ")) &&
     negb (startsWith (toLowerCase line) (ApexDoc.CLASS ++ " ")) &&
     negb (startsWith (toLowerCase line) (ApexDoc.INTERFACE ++ " ")) &&
     negb (match cModel with
           | Some _ => test (constructorRe className) line
           | None => false
           end) &&
     negb (match cModel with
           | Some m => isInterface m && includes line "("
           | None => false
           end)
  then true
  else false.



(** [str.charAt(i)] as the string it is: one code unit, or the empty string
    out of range. *)
Definition charAtStr (str : string) (i : nat) : string :=
  match charAt str i with
  | Some a => String a EmptyString
  | None => EmptyString
  end.

(** The [for] loop of [countChars]: [i] is the loop index, [todo] is
    [str.length - i] and [count] the running total. *)
Fixpoint countFrom (str char : string) (i todo count : nat) : nat :=
  match todo with
  | O => count
  | S todo' =>
      countFrom str char (S i) todo'
                (if String.eqb (charAtStr str i) char then S count else count)
  end.

Definition countChars (str char : string) : nat :=
  countFrom str char 0 (String.length str) 0.

(** [[a-zA-Z0-9]] *)
Definition isAlnum (a : ascii) : bool :=
  between 97 122 a || between 65 90 a || between 48 57 a.

Fixpoint oneOf (set : string) (a : ascii) : bool :=
  match set with
  | EmptyString => false
  | String c set' => Ascii.eqb a c || oneOf set' a
  end.

(** [[-a-zA-Z0-9+&@#/%?=~_|!:,.;]] *)
Definition urlBody (a : ascii) : bool := isAlnum a || oneOf "-+&@#/%?=~_|!:,.;" a.

(** [[-a-zA-Z0-9+&@#/%=~_|]] *)
Definition urlEnd (a : ascii) : bool := isAlnum a || oneOf "-+&@#/%=~_|" a.

(** [/^(https?):\/\/[-a-zA-Z0-9+&@#/%?=~_|!:,.;]*[-a-zA-Z0-9+&@#/%=~_|]/] *)
Definition urlRe : regex :=
  Seq Bol
      (Seq (Seq (lit "http") (Opt (chr "s"%char)))
           (Seq (lit "://")
                (Seq (Star (Class urlBody)) (Class urlEnd)))).

Definition isURL (str : string) : bool :=
  if negb (truthy str) then false
  else test urlRe (trim str).

End Utils.
Import Utils.

(* ------------------------------------------------------------------ *)
(** ** Vocabulary of the statements

    Definitions that the properties below are stated with; none of them is
    part of the program. *)

(** The code unit before the position reached after reading [u]. *)
Fixpoint lastOf (prev : option ascii) (u : string) : option ascii :=
  match u with
  | EmptyString => prev
  | String a u' => lastOf (Some a) u'
  end.

(** Every code unit of [u] is in the class [f]. *)
Fixpoint allOf (f : ascii -> bool) (u : string) : bool :=
  match u with
  | EmptyString => true
  | String a u' => f a && allOf f u'
  end.

(** [matches r prev s prev' s']: started before [s] with [prev] as the
    preceding code unit, [r] can match a prefix of [s] and leave [s']. *)
Inductive matches : regex -> option ascii -> string -> option ascii -> string -> Prop :=
| M_Eps : forall p s, matches Eps p s p s
| M_Class : forall (f : ascii -> bool) p a s,
    f a = true -> matches (Class f) p (String a s) (Some a) s
| M_Seq : forall r1 r2 p s p1 s1 p2 s2,
    matches r1 p s p1 s1 -> matches r2 p1 s1 p2 s2 ->
    matches (Seq r1 r2) p s p2 s2
| M_AltL : forall r1 r2 p s p' s',
    matches r1 p s p' s' -> matches (Alt r1 r2) p s p' s'
| M_AltR : forall r1 r2 p s p' s',
    matches r2 p s p' s' -> matches (Alt r1 r2) p s p' s'
| M_OptSome : forall r p s p' s',
    matches r p s p' s' -> matches (Opt r) p s p' s'
| M_OptNone : forall r p s, matches (Opt r) p s p s
| M_StarNil : forall r p s, matches (Star r) p s p s
| M_StarCons : forall r p s p1 s1 p2 s2,
    matches r p s p1 s1 -> String.length s1 < String.length s ->
    matches (Star r) p1 s1 p2 s2 -> matches (Star r) p s p2 s2
| M_Bol : forall s, matches Bol None s None s
| M_WordB : forall p s, atBoundary p s = true -> matches WordB p s p s.

Create HintDb regex.
#[export] Hint Constructors matches : regex.

(** The matcher [rmatch r] fails exactly when the continuation refuses every
    declarative match of [r]. *)
Definition noMatch (R : Type) (r : regex) : Prop :=
  forall p s (k : cont R),
    rmatch r p s k = None <->
    (forall p' s', matches r p s p' s' -> k p' s' = None).

(** All code units, for properties that are checked on each of them. *)
Definition allAscii : list ascii := map ascii_of_nat (seq 0 256).

(** The letters a pattern of [Utils.ts] is written with. *)
Definition isLowerLetter (c : ascii) : bool := between 97 122 c.

(** Equality of two strings up to the case of ASCII letters. *)
Fixpoint canonEq (u w : string) : bool :=
  match u, w with
  | EmptyString, EmptyString => true
  | String a u', String c w' =>
      Ascii.eqb (canonicalize a) (canonicalize c) && canonEq u' w'
  | _, _ => false
  end.

(** [w] occurs in [l] as a whole word: not preceded and not followed by a
    word character. *)
Definition wholeWordIn (w l : string) : Prop :=
  exists pre post : string,
    l = pre ++ w ++ post /\
    isWordOpt (lastOf None pre) = false /\
    isWordOpt (head post) = false.

(** [w] occurs in [l] at the start of a word and is followed by white
    space. *)
Definition wordThenSpaceIn (w l : string) : Prop :=
  exists (pre : string) (c : ascii) (post : string),
    l = pre ++ w ++ String c post /\
    isWordOpt (lastOf None pre) = false /\
    isSpace c = true.

(** The access modifiers an enum declaration may start with. *)
Definition accessModifiers : list string := ["global"; "public"; "private"].

(** The shape of an enum declaration: an optional access modifier with the
    white space after it, then the keyword [enum], then no word character. *)
Definition enumShape (l : string) : Prop :=
  exists lead rest : string,
    l = lead ++ "enum" ++ rest /\
    isWordOpt (head rest) = false /\
    (lead = "" \/
     exists m sp : string,
       In m accessModifiers /\ sp <> "" /\ allOf isSpace sp = true /\
       lead = m ++ sp).


(** [n] annotations [@a] in a row. *)
Definition manyAnnotations (n : nat) : string := Nat.iter n (append "@a") "".

(** The number of code units of [s] that, as one-character strings, are
    equal to [char]. *)
Fixpoint occurrences (char s : string) : nat :=
  match s with
  | EmptyString => 0
  | String a s' =>
      (if String.eqb (String a EmptyString) char then 1 else 0)
      + occurrences char s'
  end.

(** The character classes of [r] do not tell a code unit from its lower-case
    form. *)
Fixpoint lowerStable (r : regex) : Prop :=
  match r with
  | Class p => forall a, p (toLower a) = p a
  | Seq r1 r2 | Alt r1 r2 => lowerStable r1 /\ lowerStable r2
  | Opt r1 | Star r1 => lowerStable r1
  | Eps | Bol | WordB => True
  end.

(** The continuation [k'] does on a lower-cased matcher state what [k] does
    on the state, up to [g] on the results. *)
Definition related (R R' : Type) (g : R -> R') (k : cont R) (k' : cont R')
  : Prop :=
  forall p s, k' (option_map toLower p) (toLowerCase s) = option_map g (k p s).

(** Any code unit but the separator of [split]. *)
Definition notDot (a : ascii) : bool := negb (Ascii.eqb a "."%char).

(** The string [s] does not start with a code unit of the class [f]. *)
Definition headNot (f : ascii -> bool) (s : string) : Prop :=
  match s with
  | EmptyString => True
  | String a _ => f a = false
  end.

(** The shape of an accepted URL: scheme, [://], a run of body characters
    and one closing character; anything may follow. *)
Definition urlShape (u : string) : Prop :=
  exists (scheme body : string) (c : ascii) (rest : string),
    (scheme = "http" \/ scheme = "https") /\
    u = scheme ++ "://" ++ body ++ String c rest /\
    allOf urlBody body = true /\
    urlEnd c = true.

(* ------------------------------------------------------------------ *)
(** ** Facts about the string primitives *)

Section StringFacts.

Lemma append_assoc (s t u : string) : (s ++ t) ++ u = s ++ (t ++ u).
Proof. induction s as [|a s IH]; simpl; [reflexivity | now rewrite IH]. Qed.

Lemma length_append (s t : string) :
  String.length (s ++ t) = String.length s + String.length t.
Proof. induction s as [|a s IH]; simpl; [reflexivity | now rewrite IH]. Qed.

Lemma startsWith_iff (s p : string) :
  startsWith s p = true <-> exists rest, s = p ++ rest.
Proof.
  unfold startsWith. revert s.
  induction p as [|c p IH]; intros s.
  - destruct s; simpl; split; eauto.
  - destruct s as [|a s]; simpl.
    + split; [discriminate | intros [rest H]; discriminate].
    + destruct (ascii_dec c a) as [->|Hne].
      * rewrite IH. split; intros [rest H]; exists rest.
        -- now rewrite H.
        -- now injection H.
      * split; [discriminate | intros [rest H]; injection H; congruence].
Qed.

Lemma trimStart_head (s : string) (a : ascii) (t : string) :
  trimStart s = String a t -> isSpace a = false.
Proof.
  induction s as [|b s IH]; simpl; [discriminate|].
  destruct (isSpace b) eqn:Hb; [exact IH|].
  intros H. injection H as -> _. exact Hb.
Qed.

Lemma trimEnd_head (s : string) (a : ascii) (t : string) :
  trimEnd s = String a t -> exists t', s = String a t'.
Proof.
  destruct s as [|b s]; simpl; [discriminate|].
  destruct (trimEnd s); [destruct (isSpace b)|]; intros H;
    try discriminate; injection H as -> _; eauto.
Qed.

(** A trimmed string never starts with white space. *)
Lemma trim_head (s : string) (a : ascii) (t : string) :
  trim s = String a t -> isSpace a = false.
Proof.
  unfold trim. intros H.
  destruct (trimEnd_head _ H) as [t' Ht'].
  exact (trimStart_head _ Ht').
Qed.

Lemma trim_not_space_prefix (s : string) : startsWith (trim s) " " = false.
Proof.
  destruct (startsWith (trim s) " ") eqn:H; [|reflexivity].
  apply startsWith_iff in H. destruct H as [rest H]. simpl in H.
  apply trim_head in H. discriminate.
Qed.

End StringFacts.

(* ------------------------------------------------------------------ *)
(** ** The loop of [stripAnnotations] *)

Section StripLoop.

Lemma stripLoop_unfold (fuel : nat) (line : string) (i : nat) :
  stripLoop (S fuel) line i =
  if stripCond line
  then if Nat.leb 100 i then Some (stripStep line)
       else stripLoop fuel (stripStep line) (S i)
  else Some line.
Proof. reflexivity. Qed.

(** With the counter at [i <= 100], [101 - i] unfoldings are enough, and more
    fuel does not change the result. *)
Lemma stripLoop_fuel (fuel : nat) :
  forall (line : string) (i : nat),
    i <= 100 -> 101 - i <= fuel ->
    stripLoop fuel line i = stripLoop (101 - i) line i.
Proof.
  induction fuel as [|fuel IH]; intros line i Hi Hf; [lia|].
  replace (101 - i) with (S (100 - i)) by lia.
  rewrite !stripLoop_unfold.
  destruct (stripCond line); [|reflexivity].
  destruct (Nat.leb 100 i) eqn:Hc; [reflexivity|].
  apply Nat.leb_gt in Hc.
  rewrite IH by lia.
  replace (101 - S i) with (100 - i) by lia. reflexivity.
Qed.

(** What the loop computes: some number [n] of stripping steps, each taken
    with the loop condition true, and at the end either the condition is
    false or the counter has reached the cap. *)
Lemma stripLoop_spec (fuel : nat) :
  forall (line : string) (i : nat),
    i <= 100 -> 101 - i <= fuel ->
    exists n : nat,
      n <= 101 - i /\
      stripLoop fuel line i = Some (Nat.iter n stripStep line) /\
      (forall j, j < n -> stripCond (Nat.iter j stripStep line) = true) /\
      (stripCond (Nat.iter n stripStep line) = false \/ n = 101 - i).
Proof.
  induction fuel as [|fuel IH]; intros line i Hi Hf; [lia|].
  rewrite stripLoop_unfold.
  destruct (stripCond line) eqn:Hc.
  - destruct (Nat.leb 100 i) eqn:Hcap.
    + apply Nat.leb_le in Hcap. exists 1.
      split; [lia|]. split; [reflexivity|]. split; [|right; lia].
      intros j Hj. assert (j = 0) as -> by lia. exact Hc.
    + apply Nat.leb_gt in Hcap.
      destruct (IH (stripStep line) (S i)) as (n & Hn & Hr & Hall & Hend);
        [lia | lia |].
      exists (S n). rewrite Nat.iter_succ_r.
      split; [lia|]. split; [exact Hr|]. split.
      * intros [|j] Hj; [exact Hc|].
        rewrite Nat.iter_succ_r. apply Hall. lia.
      * destruct Hend as [Hend | Hend]; [left; exact Hend | right; lia].
  - exists 0.
    split; [lia|]. split; [reflexivity|]. split; [|left; exact Hc].
    intros j Hj. lia.
Qed.

Lemma stripAnnotations_spec (line : string) :
  exists n : nat,
    n <= 101 /\
    stripAnnotations line = Nat.iter n stripStep line /\
    (forall j, j < n -> stripCond (Nat.iter j stripStep line) = true) /\
    (stripCond (stripAnnotations line) = false \/ n = 101).
Proof.
  destruct (@stripLoop_spec 101 line 0) as (n & Hn & Hr & Hall & Hend);
    [lia | lia |].
  unfold stripAnnotations. rewrite Hr.
  exists n. split; [lia|]. split; [reflexivity|]. split; [exact Hall|].
  destruct Hend as [Hend | Hend]; [left; exact Hend | right; lia].
Qed.

(** When the condition is false the loop body is never entered. *)
Lemma stripAnnotations_done (line : string) :
  stripCond line = false -> stripAnnotations line = line.
Proof.
  intros H. unfold stripAnnotations.
  rewrite stripLoop_unfold, H. reflexivity.
Qed.

Lemma iter_fixpoint (A : Type) (f : A -> A) (x : A) (n : nat) :
  f x = x -> Nat.iter n f x = x.
Proof. intros H. induction n as [|n IH]; simpl; [reflexivity | now rewrite IH]. Qed.

(** A line that one stripping step leaves as it is comes back unchanged. *)
Lemma stripAnnotations_fixpoint (line : string) :
  stripStep line = line -> stripAnnotations line = line.
Proof.
  intros H. destruct (stripAnnotations_spec line) as (n & _ & Hr & _).
  rewrite Hr. now apply iter_fixpoint.
Qed.

End StripLoop.

(* ------------------------------------------------------------------ *)
(** ** Declarative semantics of the patterns and correctness of the matcher *)

Section RegexFacts.

Lemma lastOf_append (p : option ascii) (u v : string) :
  lastOf p (u ++ v) = lastOf (lastOf p u) v.
Proof. revert p. induction u as [|a u IH]; intros p; simpl; [reflexivity | apply IH]. Qed.

Lemma lastOf_none (u : string) : lastOf None u = None -> u = "".
Proof.
  destruct u as [|a u]; [reflexivity|]. simpl.
  assert (H : forall b v, lastOf (Some b) v <> None).
  { intros b v. revert b. induction v as [|c v IH]; intros b; simpl;
      [discriminate | apply IH]. }
  intros E. now apply H in E.
Qed.

(** A match reads a prefix [u] of the input. *)
Lemma matches_prefix r p s p' s' :
  matches r p s p' s' -> exists u, s = u ++ s' /\ p' = lastOf p u.
Proof.
  induction 1 as
    [ p s | f p a s Hf
    | r1 r2 p s p1 s1 p2 s2 _ IH1 _ IH2
    | r1 r2 p s p' s' _ IH | r1 r2 p s p' s' _ IH
    | r p s p' s' _ IH | r p s | r p s
    | r p s p1 s1 p2 s2 _ IH1 _ _ IH2
    | s | p s Hb ];
    try (exists ""; split; reflexivity);
    try exact IH.
  - exists (String a ""). split; reflexivity.
  - destruct IH1 as (u1 & -> & ->), IH2 as (u2 & -> & ->).
    exists (u1 ++ u2). now rewrite append_assoc, lastOf_append.
  - destruct IH1 as (u1 & -> & ->), IH2 as (u2 & -> & ->).
    exists (u1 ++ u2). now rewrite append_assoc, lastOf_append.
Qed.

Section Correctness.
Variable R : Type.
Implicit Type k : cont R.

Lemma orElse_none (x y : option R) :
  orElse x y = None <-> x = None /\ y = None.
Proof.
  destruct x; simpl; split.
  - discriminate.
  - intros [H _]. discriminate.
  - auto.
  - intros [_ H]. exact H.
Qed.

Lemma iterate_none (r : regex) (IH : noMatch R r) (fuel : nat) :
  forall p s k,
    String.length s < fuel ->
    (iterate (rmatch r) fuel p s k = None <->
     (forall p' s', matches (Star r) p s p' s' -> k p' s' = None)).
Proof.
  induction fuel as [|fuel IHf]; intros p s k Hlen; [lia|].
  simpl. rewrite orElse_none, (IH p s). split.
  - intros [Hstep Hnil] p' s' Hm.
    inversion Hm; subst; [exact Hnil|].
    match goal with
    | H1 : matches r p s ?p1 ?s1, Hlt : String.length ?s1 < _,
      H2 : matches (Star r) ?p1 ?s1 p' s' |- _ =>
        specialize (Hstep _ _ H1);
        apply Nat.ltb_lt in Hlt; rewrite Hlt in Hstep;
        apply Nat.ltb_lt in Hlt;
        apply (proj1 (IHf p1 s1 k ltac:(lia)) Hstep); exact H2
    end.
  - intros Hall. split.
    + intros p1 s1 H1.
      destruct (Nat.ltb (String.length s1) (String.length s)) eqn:Hlt;
        [|reflexivity].
      apply Nat.ltb_lt in Hlt.
      apply (IHf p1 s1 k ltac:(lia)).
      intros p' s' H2. apply Hall. eapply M_StarCons; eassumption.
    + apply Hall. constructor.
Qed.

(** The matcher fails exactly when every declarative match is refused by the
    continuation. *)
Lemma rmatch_none (r : regex) : noMatch R r.
Proof.
  induction r as [| f | r1 IH1 r2 IH2 | r1 IH1 r2 IH2 | r IH | r IH | |];
    intros p s k; simpl.
  - split; [intros H p' s' Hm; inversion Hm; subst; exact H
           | intros H; apply H; constructor].
  - destruct s as [|a s].
    + split; [intros _ p' s' Hm; inversion Hm | reflexivity].
    + destruct (f a) eqn:Hf.
      * split; [intros H p' s' Hm; inversion Hm; subst; exact H
               | intros H; apply H; now constructor].
      * split; [intros _ p' s' Hm; inversion Hm; subst; congruence
               | reflexivity].
  - rewrite (IH1 p s). split.
    + intros H p' s' Hm. inversion Hm; subst.
      eapply IH2; [eapply H|]; eassumption.
    + intros H p1 s1 H1. apply IH2. intros p' s' H2.
      apply H. econstructor; eassumption.
  - rewrite orElse_none, (IH1 p s), (IH2 p s). split.
    + intros [Ha Hb] p' s' Hm. inversion Hm; subst; auto.
    + intros H. split; intros p' s' Hm; apply H; auto with regex.
  - rewrite orElse_none, (IH p s). split.
    + intros [Ha Hb] p' s' Hm. inversion Hm; subst; auto.
    + intros H. split; [intros p' s' Hm|]; apply H; auto with regex.
  - exact (@iterate_none r IH (S (String.length s)) p s k
                          (Nat.lt_succ_diag_r _)).
  - destruct p as [a|].
    + split; [intros _ p' s' Hm; inversion Hm | reflexivity].
    + split; [intros H p' s' Hm; inversion Hm; subst; exact H
             | intros H; apply H; constructor].
  - destruct (atBoundary p s) eqn:Hb.
    + split; [intros H p' s' Hm; inversion Hm; subst; exact H
             | intros H; apply H; now constructor].
    + split; [intros _ p' s' Hm; inversion Hm; subst; congruence
             | reflexivity].
Qed.

End Correctness.

(** A successful run of the matcher comes from a declarative match that the
    continuation accepts. *)
Lemma iterate_some (R : Type) (r : regex)
      (IH : forall p s (k : cont R) x, rmatch r p s k = Some x ->
            exists p' s', matches r p s p' s' /\ k p' s' = Some x)
      (fuel : nat) :
  forall p s (k : cont R) x,
    iterate (rmatch r) fuel p s k = Some x ->
    exists p' s', matches (Star r) p s p' s' /\ k p' s' = Some x.
Proof.
  induction fuel as [|fuel IHf]; intros p s k x; simpl.
  - intros H. exists p, s. split; [constructor | exact H].
  - destruct (rmatch r p s _) as [y|] eqn:E; simpl.
    + intros H. injection H as ->.
      apply IH in E. destruct E as (p1 & s1 & H1 & Hk).
      destruct (Nat.ltb (String.length s1) (String.length s)) eqn:Hlt;
        [|discriminate].
      apply Nat.ltb_lt in Hlt.
      apply IHf in Hk. destruct Hk as (p' & s' & H2 & Hk).
      exists p', s'. split; [eapply M_StarCons; eassumption | exact Hk].
    + intros H. exists p, s. split; [constructor | exact H].
Qed.

Lemma rmatch_some (R : Type) (r : regex) :
  forall p s (k : cont R) x,
    rmatch r p s k = Some x ->
    exists p' s', matches r p s p' s' /\ k p' s' = Some x.
Proof.
  induction r as [| f | r1 IH1 r2 IH2 | r1 IH1 r2 IH2 | r IH | r IH | |];
    intros p s k x; simpl.
  - intros H. exists p, s. split; [constructor | exact H].
  - destruct s as [|a s]; [discriminate|].
    destruct (f a) eqn:Hf; [|discriminate].
    intros H. exists (Some a), s. split; [now constructor | exact H].
  - intros H. apply IH1 in H. destruct H as (p1 & s1 & H1 & H).
    apply IH2 in H. destruct H as (p' & s' & H2 & H).
    exists p', s'. split; [econstructor; eassumption | exact H].
  - destruct (rmatch r1 p s k) as [y|] eqn:E; simpl; intros H.
    + rewrite <- H in *. apply IH1 in E. destruct E as (p' & s' & Hm & Hk).
      exists p', s'. split; [now apply M_AltL | exact Hk].
    + apply IH2 in H. destruct H as (p' & s' & Hm & Hk).
      exists p', s'. split; [now apply M_AltR | exact Hk].
  - destruct (rmatch r p s k) as [y|] eqn:E; simpl; intros H.
    + rewrite <- H in *. apply IH in E. destruct E as (p' & s' & Hm & Hk).
      exists p', s'. split; [now apply M_OptSome | exact Hk].
    + exists p, s. split; [apply M_OptNone | exact H].
  - exact (@iterate_some R r IH (S (String.length s)) p s k x).
  - destruct p as [a|]; [discriminate|].
    intros H. exists None, s. split; [constructor | exact H].
  - destruct (atBoundary p s) eqn:Hb; [|discriminate].
    intros H. exists p, s. split; [now constructor | exact H].
Qed.

Lemma matchHere_some r p s :
  (exists rest, matchHere r p s = Some rest) <->
  (exists p' s', matches r p s p' s').
Proof.
  unfold matchHere. split.
  - intros [rest H]. apply rmatch_some in H.
    destruct H as (p' & s' & Hm & _). eauto.
  - intros (p' & s' & Hm).
    destruct (rmatch r p s (fun _ s0 => Some s0)) as [rest|] eqn:E; [eauto|].
    pose proof (proj1 (rmatch_none r p s _) E _ _ Hm) as Hk. discriminate.
Qed.

(** *** Searching for the leftmost match *)

Lemma search_some r :
  forall p s pre rest,
    search r p s = Some (pre, rest) ->
    exists suf, s = pre ++ suf /\ matchHere r (lastOf p pre) suf = Some rest.
Proof.
  intros p s. revert p.
  induction s as [|a s IH]; intros p pre rest; simpl.
  - destruct (matchHere r p "") as [x|] eqn:E; [|discriminate].
    intros H. injection H as <- <-. exists "". split; [reflexivity | exact E].
  - destruct (matchHere r p (String a s)) as [x|] eqn:E.
    + intros H. injection H as <- <-.
      exists (String a s). split; [reflexivity | exact E].
    + destruct (search r (Some a) s) as [[pre' rest']|] eqn:Es; [|discriminate].
      intros H. injection H as <- <-.
      destruct (IH _ _ _ Es) as (suf & -> & Hm).
      exists suf. split; [reflexivity | exact Hm].
Qed.

Lemma search_found r :
  forall pre p suf p' s',
    matches r (lastOf p pre) suf p' s' -> search r p (pre ++ suf) <> None.
Proof.
  induction pre as [|a pre IH]; intros p suf p' s' Hm.
  - simpl in Hm. simpl.
    assert (Hs : exists rest, matchHere r p suf = Some rest)
      by (apply matchHere_some; eauto).
    destruct Hs as [rest Hs].
    destruct suf; simpl; rewrite Hs; discriminate.
  - simpl. destruct (matchHere r p (String a (pre ++ suf))); [discriminate|].
    specialize (IH (Some a) suf p' s' Hm).
    destruct (search r (Some a) (pre ++ suf)) as [[? ?]|];
      [discriminate | congruence].
Qed.

(** [r.test(s)] holds exactly when [r] matches at some position of [s]. *)
Lemma test_iff r s :
  test r s = true <->
  exists pre suf p' s',
    s = pre ++ suf /\ matches r (lastOf None pre) suf p' s'.
Proof.
  unfold test. split.
  - destruct (search r None s) as [[pre rest]|] eqn:E; [|discriminate].
    intros _. apply search_some in E. destruct E as (suf & -> & Hm).
    assert (Hex : exists p' s', matches r (lastOf None pre) suf p' s')
      by (apply matchHere_some; eauto).
    destruct Hex as (p' & s' & Hex). exists pre, suf, p', s'. auto.
  - intros (pre & suf & p' & s' & -> & Hm).
    pose proof (search_found pre None Hm) as Hs.
    destruct (search r None (pre ++ suf)); [reflexivity | congruence].
Qed.

(** *** What the building blocks of the patterns match *)

Lemma matches_seq r1 r2 p s p' s' :
  matches (Seq r1 r2) p s p' s' <->
  exists p1 s1, matches r1 p s p1 s1 /\ matches r2 p1 s1 p' s'.
Proof.
  split.
  - intros H. inversion H; subst. eauto.
  - intros (p1 & s1 & H1 & H2). econstructor; eassumption.
Qed.

Lemma matches_class f p s p' s' :
  matches (Class f) p s p' s' <->
  exists a, s = String a s' /\ f a = true /\ p' = Some a.
Proof.
  split.
  - intros H. inversion H; subst. eauto.
  - intros (a & -> & Hf & ->). now constructor.
Qed.

Lemma matches_chr c p s p' s' :
  matches (chr c) p s p' s' <-> s = String c s' /\ p' = Some c.
Proof.
  unfold chr. rewrite matches_class. split.
  - intros (a & -> & Hf & ->). apply Ascii.eqb_eq in Hf. now subst.
  - intros [-> ->]. exists c. now rewrite Ascii.eqb_refl.
Qed.

Lemma matches_lit w :
  forall p s p' s',
    matches (lit w) p s p' s' <-> s = w ++ s' /\ p' = lastOf p w.
Proof.
  induction w as [|c w IH]; intros p s p' s'; simpl.
  - split.
    + intros H. inversion H; subst. auto.
    + intros [-> ->]. constructor.
  - rewrite matches_seq. split.
    + intros (p1 & s1 & H1 & H2).
      apply matches_chr in H1. destruct H1 as [-> ->].
      apply IH in H2. destruct H2 as [-> ->]. auto.
    + intros [-> ->]. exists (Some c), (w ++ s'). split.
      * now apply matches_chr.
      * now apply IH.
Qed.

Lemma matches_star_class f p s p' s' :
  matches (Star (Class f)) p s p' s' <->
  exists u, s = u ++ s' /\ allOf f u = true /\ p' = lastOf p u.
Proof.
  split.
  - intros H. remember (Star (Class f)) as r eqn:Er.
    induction H as
      [ | | | | | | | r p s
      | r p s p1 s1 p2 s2 H1 _ Hlt _ IH2 | | ];
      try discriminate.
    + exists "". auto.
    + injection Er as ->.
      apply matches_class in H1. destruct H1 as (a & -> & Hf & ->).
      destruct (IH2 eq_refl) as (u & -> & Hu & ->).
      exists (String a u). simpl. now rewrite Hf, Hu.
  - intros (u & -> & Hu & ->). revert p Hu.
    induction u as [|a u IH]; intros p Hu; simpl.
    + constructor.
    + simpl in Hu. apply andb_true_iff in Hu. destruct Hu as [Hf Hu].
      eapply M_StarCons.
      * now apply M_Class.
      * simpl. apply Nat.lt_succ_diag_r.
      * now apply IH.
Qed.

Lemma matches_plus_class f p s p' s' :
  matches (Plus (Class f)) p s p' s' <->
  exists u, u <> "" /\ s = u ++ s' /\ allOf f u = true /\ p' = lastOf p u.
Proof.
  unfold Plus. rewrite matches_seq. split.
  - intros (p1 & s1 & H1 & H2).
    apply matches_class in H1. destruct H1 as (a & -> & Hf & ->).
    apply matches_star_class in H2. destruct H2 as (u & -> & Hu & ->).
    exists (String a u). simpl. rewrite Hf, Hu.
    repeat split; discriminate.
  - intros (u & Hne & -> & Hu & ->).
    destruct u as [|a u]; [congruence|].
    simpl in Hu. apply andb_true_iff in Hu. destruct Hu as [Hf Hu].
    exists (Some a), (u ++ s'). split.
    + now apply M_Class.
    + apply matches_star_class. exists u. auto.
Qed.

Lemma matches_wordb p s p' s' :
  matches WordB p s p' s' <-> s' = s /\ p' = p /\ atBoundary p s = true.
Proof.
  split.
  - intros H. inversion H; subst. auto.
  - intros (-> & -> & Hb). now constructor.
Qed.

Lemma matches_bol p s p' s' :
  matches Bol p s p' s' <-> s' = s /\ p' = None /\ p = None.
Proof.
  split.
  - intros H. inversion H; subst. auto.
  - intros (-> & -> & ->). constructor.
Qed.

Lemma matches_opt r p s p' s' :
  matches (Opt r) p s p' s' <-> matches r p s p' s' \/ (s' = s /\ p' = p).
Proof.
  split.
  - intros H. inversion H; subst; auto.
  - intros [H | [-> ->]]; [now apply M_OptSome | apply M_OptNone].
Qed.

Lemma matches_alt r1 r2 p s p' s' :
  matches (Alt r1 r2) p s p' s' <->
  matches r1 p s p' s' \/ matches r2 p s p' s'.
Proof.
  split.
  - intros H. inversion H; subst; auto.
  - intros [H | H]; [now apply M_AltL | now apply M_AltR].
Qed.

(** A keyword followed by one or more white-space characters. *)
Lemma matches_lit_spaces m p s p' s' :
  matches (Seq (lit m) (Plus ws)) p s p' s' <->
  exists sp, sp <> "" /\ allOf isSpace sp = true /\
             s = (m ++ sp) ++ s' /\ p' = lastOf p (m ++ sp).
Proof.
  rewrite matches_seq. split.
  - intros (p1 & s1 & H1 & H2).
    apply matches_lit in H1. destruct H1 as [-> ->].
    apply matches_plus_class in H2. destruct H2 as (sp & Hne & -> & Hsp & ->).
    exists sp. rewrite append_assoc, lastOf_append. auto.
  - intros (sp & Hne & Hsp & -> & ->).
    exists (lastOf p m), (sp ++ s'). split.
    + apply matches_lit. now rewrite append_assoc.
    + apply matches_plus_class. exists sp. rewrite lastOf_append. auto.
Qed.

End RegexFacts.

(* ------------------------------------------------------------------ *)
(** ** One stripping step removes an annotation or leaves nothing to do *)

Section StripStep.

Lemma trimStart_length (s : string) :
  String.length (trimStart s) <= String.length s.
Proof.
  induction s as [|a s IH]; simpl; [lia|].
  destruct (isSpace a); simpl; lia.
Qed.

Lemma trimEnd_length (s : string) :
  String.length (trimEnd s) <= String.length s.
Proof.
  induction s as [|a s IH]; simpl; [lia|].
  destruct (trimEnd s); [destruct (isSpace a)|]; simpl in *; lia.
Qed.

Lemma trim_length (s : string) : String.length (trim s) <= String.length s.
Proof.
  unfold trim. pose proof (trimEnd_length (trimStart s)).
  pose proof (trimStart_length s). lia.
Qed.

Lemma trimEnd_idempotent (s : string) : trimEnd (trimEnd s) = trimEnd s.
Proof.
  induction s as [|a s IH]; simpl; [reflexivity|].
  destruct (trimEnd s) as [|b t] eqn:E.
  - destruct (isSpace a) eqn:Ha; simpl; [reflexivity | now rewrite Ha].
  - change (trimEnd (String a (String b t)))
      with (match trimEnd (String b t) with
            | EmptyString => if isSpace a then "" else String a ""
            | t' => String a t'
            end).
    now rewrite IH.
Qed.

Lemma trim_idempotent (s : string) : trim (trim s) = trim s.
Proof.
  unfold trim.
  assert (H : trimStart (trimEnd (trimStart s)) = trimEnd (trimStart s)).
  { destruct (trimEnd (trimStart s)) as [|a t] eqn:E; [reflexivity|].
    simpl. now rewrite (trim_head s E). }
  rewrite H. apply trimEnd_idempotent.
Qed.

(** A match of the annotation pattern is two code units long at least. *)
Lemma annotation_match_length p s p' s' :
  matches annotationRe p s p' s' -> String.length s' + 2 <= String.length s.
Proof.
  unfold annotationRe. intros H.
  apply matches_seq in H. destruct H as (p1 & s1 & H1 & H).
  apply matches_chr in H1. destruct H1 as [-> ->].
  apply matches_seq in H. destruct H as (p2 & s2 & H2 & H).
  apply matches_plus_class in H2. destruct H2 as (u & Hu & -> & _ & ->).
  apply matches_prefix in H. destruct H as (v & -> & _).
  destruct u; [congruence|].
  simpl. rewrite !length_append. lia.
Qed.

Lemma replaceFirst_annotation (s : string) :
  search annotationRe None s = None /\ replaceFirst annotationRe s = s \/
  String.length (replaceFirst annotationRe s) + 2 <= String.length s.
Proof.
  unfold replaceFirst.
  destruct (search annotationRe None s) as [[pre rest]|] eqn:E; [right | now left].
  apply search_some in E. destruct E as (suf & -> & Hm).
  apply rmatch_some in Hm. destruct Hm as (p' & s' & Hm & Hk).
  injection Hk as ->.
  apply annotation_match_length in Hm.
  rewrite !length_append. lia.
Qed.

(** A step that finds no annotation only trims, and then nothing is left
    to do for a further step. *)
Lemma stripStep_dichotomy (line : string) :
  stripStep (stripStep line) = stripStep line \/
  String.length (stripStep line) + 2 <= String.length line.
Proof.
  unfold stripStep at 2 3.
  destruct (replaceFirst_annotation (trim line)) as [[Hs Hr] | Hlen].
  - left. rewrite Hr. unfold stripStep. now rewrite trim_idempotent, Hr.
  - right. pose proof (trim_length line). unfold stripStep. lia.
Qed.

Lemma stripStep_iter (line : string) (n : nat) :
  stripStep (Nat.iter n stripStep line) = Nat.iter n stripStep line \/
  String.length (Nat.iter n stripStep line) + 2 * n <= String.length line.
Proof.
  induction n as [|n IH]; [right; simpl; lia|].
  simpl Nat.iter. destruct IH as [Hfix | Hlen].
  - left. now rewrite !Hfix.
  - destruct (stripStep_dichotomy (Nat.iter n stripStep line)) as [H | H].
    + now left.
    + right. lia.
Qed.

Lemma trim_single (a : ascii) :
  trim (String a "") = if isSpace a then "" else String a "".
Proof. unfold trim. simpl. destruct (isSpace a) eqn:Ha; simpl; now rewrite ?Ha. Qed.

Lemma short_line_done (r : string) :
  String.length r <= 1 -> stripCond r = false \/ stripStep r = r.
Proof.
  destruct r as [|a [|b r]]; simpl; intros H; [now left | | lia].
  destruct (ascii_dec a "@"%char) as [-> | Hne].
  - right. vm_compute. reflexivity.
  - left. unfold stripCond. rewrite trim_single.
    destruct (startsWith (if isSpace a then "" else String a "") "@") eqn:E;
      [|reflexivity].
    apply startsWith_iff in E. destruct E as [rest E].
    destruct (isSpace a); [discriminate|].
    injection E as E _. congruence.
Qed.

(** Below 204 code units the cap cannot cut the loop short. *)
Lemma stripAnnotations_short (x : string) :
  String.length x < 204 ->
  stripCond (stripAnnotations x) = false \/
  stripStep (stripAnnotations x) = stripAnnotations x.
Proof.
  intros Hlen.
  destruct (stripAnnotations_spec x) as (n & Hn & Hr & _ & [Hc | ->]);
    [now left|].
  rewrite Hr.
  destruct (stripStep_iter x 101) as [Hfix | Hsmall]; [now right|].
  apply short_line_done. lia.
Qed.

End StripStep.

(* ------------------------------------------------------------------ *)
(** ** The scope resolver *)

Section ScopeFacts.

Lemma scopeLoop_cons (scope : string) (rest : list string) (line : string) :
  scopeLoop (scope :: rest) line =
  if startsWith (normalize line) (toLowerCase scope ++ " ")
  then inl (toLowerCase scope)
  else if String.eqb (toLowerCase scope) TEST_METHOD &&
          startsWith (normalize line) ("static " ++ TEST_METHOD ++ " ")
       then inl (toLowerCase scope)
       else scopeLoop rest (normalize line).
Proof. reflexivity. Qed.

(** An early return of the loop: the keyword is entry [n - 1] of the
    configuration, the line has been normalised [n] times, and the keyword
    is followed by a space, either at the start of the line or, for
    [testmethod], right after a leading [static ]. *)
Lemma scopeLoop_inl (config : list string) :
  forall (line scope : string),
    scopeLoop config line = inl scope ->
    exists n : nat,
      1 <= n <= List.length config /\
      nth_error (map toLowerCase config) (n - 1) = Some scope /\
      (startsWith (Nat.iter n normalize line) (scope ++ " ") = true \/
       (scope = TEST_METHOD /\
        startsWith (Nat.iter n normalize line)
                   ("static " ++ TEST_METHOD ++ " ") = true)).
Proof.
  induction config as [|sc rest IH]; intros line scope; [discriminate|].
  rewrite scopeLoop_cons.
  destruct (startsWith (normalize line) (toLowerCase sc ++ " ")) eqn:H1.
  - intros H. injection H as <-. exists 1.
    split; [simpl; lia|]. split; [reflexivity|]. left. exact H1.
  - destruct (String.eqb (toLowerCase sc) TEST_METHOD &&
              startsWith (normalize line) ("static " ++ TEST_METHOD ++ " "))
      eqn:H2.
    + intros H. injection H as <-. exists 1.
      apply andb_true_iff in H2. destruct H2 as [He H2].
      apply String.eqb_eq in He.
      split; [simpl; lia|]. split; [reflexivity|]. right. split; assumption.
    + intros H. apply IH in H. destruct H as (n & Hn & Hnth & Hm).
      exists (S n). rewrite Nat.iter_succ_r.
      split; [simpl; lia|]. split; [|exact Hm].
      destruct n as [|n]; [lia|]. simpl. simpl in Hnth.
      now rewrite Nat.sub_0_r in Hnth.
Qed.

(** When the loop runs to its end the line has been normalised once for
    every configured scope. *)
Lemma scopeLoop_inr (config : list string) :
  forall (line l : string),
    scopeLoop config line = inr l ->
    l = Nat.iter (List.length config) normalize line.
Proof.
  induction config as [|sc rest IH]; intros line l.
  - simpl. intros H. now injection H as <-.
  - rewrite scopeLoop_cons.
    destruct (startsWith (normalize line) (toLowerCase sc ++ " "));
      [discriminate|].
    destruct (String.eqb (toLowerCase sc) TEST_METHOD &&
              startsWith (normalize line) ("static " ++ TEST_METHOD ++ " "));
      [discriminate|].
    intros H. apply IH in H. simpl List.length.
    now rewrite Nat.iter_succ_r.
Qed.

Lemma iter_normalize_trimmed (n : nat) (line : string) :
  1 <= n -> startsWith (Nat.iter n normalize line) " " = false.
Proof.
  destruct n as [|n]; [lia|]. intros _. simpl.
  unfold normalize at 1. apply trim_not_space_prefix.
Qed.

Lemma implicitPrivate_cases (line : string) :
  implicitPrivate line = Some PRIVATE \/ implicitPrivate line = None.
Proof.
  unfold implicitPrivate.
  repeat match goal with
         | |- context [if ?b then _ else _] => destruct b
         end; auto.
Qed.

Lemma includes_private_iff (config : list string) :
  existsb (String.eqb PRIVATE) config = true <-> In PRIVATE config.
Proof.
  rewrite existsb_exists. split.
  - intros (x & Hin & He). apply String.eqb_eq in He. now subst.
  - intros Hin. exists PRIVATE. split; [exact Hin | apply String.eqb_refl].
Qed.

(** The empty string is never a resolved scope. *)
Lemma getScope_not_empty (config : list string) (line : string) :
  getScope config line <> Some "".
Proof.
  unfold getScope.
  destruct (scopeLoop config line) as [scope | l] eqn:E.
  - intros H. injection H as ->.
    apply scopeLoop_inl in E. destruct E as (n & Hn & _ & [Hm | [Hm _]]).
    + simpl in Hm. rewrite iter_normalize_trimmed in Hm by lia. discriminate.
    + discriminate.
  - destruct (existsb (String.eqb PRIVATE) config); [|discriminate].
    destruct (implicitPrivate_cases l) as [-> | ->]; discriminate.
Qed.

Lemma falsy_getScope (config : list string) (line : string) :
  falsy (getScope config line) =
  match getScope config line with None => true | Some _ => false end.
Proof.
  pose proof (getScope_not_empty config line) as H.
  destruct (getScope config line) as [[|a s]|]; simpl;
    [congruence | reflexivity | reflexivity].
Qed.

End ScopeFacts.

(* ------------------------------------------------------------------ *)
(** ** Properties of [getScope] and [shouldSkipLine] *)

Section ScopeClaims.

Lemma normalize_publicly_shared :
  normalize "publicly shared" = "publicly shared".
Proof. vm_compute. reflexivity. Qed.

(** C4 (as the claim words it).  The [testmethod] rule returns a keyword
    that is not the leading word of the line. *)
Lemma C4_testmethod_is_not_leading :
  getScope ["testmethod"] "static testmethod void run()" = Some "testmethod" /\
  startsWith (normalize "static testmethod void run()") "testmethod" = false.
Proof. split; vm_compute; reflexivity. Qed.

(** C4 (amended).  Keyword matching in the loop of [getScope] is anchored:
    when the loop returns a keyword, that keyword is a lower-cased entry of
    the configuration and the normalised line starts with the keyword
    followed by a space, or the keyword is [testmethod] and the normalised
    line starts with [static testmethod ] (keyword after a space and before a
    space).  So [public] is never the scope of [publicly shared], whatever
    the configuration, and with configuration [public; private] the scope of
    [public void foo()] is [public]. *)
Theorem C4_keyword_match_is_anchored :
  (forall (config : list string) (line scope : string),
      scopeLoop config line = inl scope ->
      exists n : nat,
        1 <= n <= List.length config /\
        nth_error (map toLowerCase config) (n - 1) = Some scope /\
        (startsWith (Nat.iter n normalize line) (scope ++ " ") = true \/
         (scope = "testmethod" /\
          startsWith (Nat.iter n normalize line) "static testmethod " = true)))
  /\ (forall config : list string,
         getScope config "publicly shared" <> Some "public")
  /\ getScope ["public"; "private"] "public void foo()" = Some "public".
Proof.
  split; [|split].
  - intros config line scope H. exact (scopeLoop_inl config line H).
  - intros config. unfold getScope.
    destruct (scopeLoop config "publicly shared") as [scope | l] eqn:E.
    + intros H. injection H as ->.
      apply scopeLoop_inl in E.
      destruct E as (n & _ & _ & [Hm | [Hm _]]).
      * rewrite (@iter_fixpoint _ normalize _ n normalize_publicly_shared) in Hm.
        vm_compute in Hm. discriminate.
      * discriminate.
    + destruct (existsb (String.eqb PRIVATE) config); [|discriminate].
      destruct (implicitPrivate_cases l) as [-> | ->]; discriminate.
  - vm_compute. reflexivity.
Qed.

Lemma C4_keyword_match_is_anchored_witness :
  scopeLoop ["public"; "private"] "public void foo()" = inl "public" /\
  exists n : nat,
    1 <= n <= 2 /\
    nth_error (map toLowerCase ["public"; "private"]) (n - 1) = Some "public" /\
    (startsWith (Nat.iter n normalize "public void foo()") ("public" ++ " ")
     = true \/
     ("public" = "testmethod" /\
      startsWith (Nat.iter n normalize "public void foo()")
                 "static testmethod " = true)).
Proof.
  split; [vm_compute; reflexivity|].
  apply (proj1 C4_keyword_match_is_anchored
               ["public"; "private"] "public void foo()" "public").
  vm_compute. reflexivity.
Defined.

(** C3.  With configuration [private], [void calculate()] resolves to
    [private] through the keyword-and-parenthesis rule and
    [void description] resolves to nothing; and for every line and every
    configuration that does not contain [private], the result is [None]
    whenever the loop over the configured keywords returns nothing. *)
Theorem C3_implicit_private_needs_private_scope :
  getScope ["private"] "void calculate()" = Some "private" /\
  getScope ["private"] "void description" = None /\
  (forall (config : list string) (line : string),
      ~ In "private" config ->
      (forall scope, scopeLoop config line <> inl scope) ->
      getScope config line = None).
Proof.
  split; [vm_compute; reflexivity|].
  split; [vm_compute; reflexivity|].
  intros config line Hnot Hloop. unfold getScope.
  destruct (scopeLoop config line) as [scope | l] eqn:E.
  - exfalso. now apply (Hloop scope).
  - destruct (existsb (String.eqb PRIVATE) config) eqn:Hp; [|reflexivity].
    exfalso. apply Hnot. now apply includes_private_iff.
Qed.

Lemma C3_implicit_private_needs_private_scope_witness :
  ~ In "private" ["public"; "global"] /\
  (forall scope, scopeLoop ["public"; "global"] "void calculate()" <> inl scope) /\
  getScope ["public"; "global"] "void calculate()" = None.
Proof.
  assert (H1 : ~ In "private" ["public"; "global"]).
  { simpl. intros [H | [H | []]]; discriminate. }
  assert (H2 : forall scope,
             scopeLoop ["public"; "global"] "void calculate()" <> inl scope).
  { intros scope. vm_compute. discriminate. }
  split; [exact H1|]. split; [exact H2|].
  exact (proj2 (proj2 C3_implicit_private_needs_private_scope) _ _ H1 H2).
Defined.

(** C9.  [getScope] never returns the empty string as a scope, and when the
    keyword loop returns nothing and the implicit-private fallback does not
    apply or finds nothing, the result is the absent value [None], which is
    not [Some ""]. *)
Theorem C9_no_match_is_not_the_empty_string :
  forall (config : list string) (line : string),
    getScope config line <> Some "" /\
    (forall l : string,
        scopeLoop config line = inr l ->
        existsb (String.eqb PRIVATE) config = false \/
        implicitPrivate l = None ->
        getScope config line = None /\ getScope config line <> Some "").
Proof.
  intros config line. split; [apply getScope_not_empty|].
  intros l Hl Hfall. split; [|apply getScope_not_empty].
  unfold getScope. rewrite Hl.
  destruct Hfall as [-> | ->]; [reflexivity|].
  now destruct (existsb (String.eqb PRIVATE) config).
Qed.

Lemma C9_no_match_is_not_the_empty_string_witness :
  scopeLoop ["private"] "void description" = inr "void description" /\
  (existsb (String.eqb PRIVATE) ["private"] = false \/
   implicitPrivate "void description" = None) /\
  getScope ["private"] "void description" = None /\
  getScope ["private"] "void description" <> Some "".
Proof.
  assert (H1 : scopeLoop ["private"] "void description"
               = inr "void description") by (vm_compute; reflexivity).
  assert (H2 : existsb (String.eqb PRIVATE) ["private"] = false \/
               implicitPrivate "void description" = None)
    by (right; vm_compute; reflexivity).
  split; [exact H1|]. split; [exact H2|].
  exact (proj2 (C9_no_match_is_not_the_empty_string
                  ["private"] "void description") _ H1 H2).
Defined.

(** C10.  With the empty configuration the loop body never runs: the line
    reaches the end of the loop as it was passed in, without annotation
    stripping, lower-casing or trimming, the implicit-private fallback is
    not entered, and [getScope] returns [None] for every line. *)
Theorem C10_empty_configuration_never_matches :
  forall line : string,
    getScope [] line = None /\
    scopeLoop [] line = inr line /\
    existsb (String.eqb PRIVATE) [] = false.
Proof. intros line. repeat split. Qed.

(** C1 (as the claim words it).  With a configuration that has no [global]
    scope, [getScope] finds nothing for the header [global class Foo {] and
    the line is skipped. *)
Lemma C1_global_class_header_is_skipped :
  getScope ["public"] "global class Foo {" = None /\
  shouldSkipLine ["public"] "global class Foo {" None = true.
Proof. split; vm_compute; reflexivity. Qed.

(** C1 (amended).  A line whose lower-cased text starts with [enum ],
    [class ] or [interface ] is never skipped, whatever the scope
    configuration and the class context.  The line [global class Foo {]
    starts with none of them: without a class context it is kept exactly
    when [getScope] resolves a scope for it. *)
Theorem C1_declaration_lines_are_kept :
  (forall (config : list string) (line : string) (cModel : option ClassModel),
      startsWith (toLowerCase line) "enum " = true \/
      startsWith (toLowerCase line) "class " = true \/
      startsWith (toLowerCase line) "interface " = true ->
      shouldSkipLine config line cModel = false)
  /\ (forall config : list string,
         shouldSkipLine config "global class Foo {" None =
         match getScope config "global class Foo {" with
         | None => true
         | Some _ => false
         end).
Proof.
  split.
  - intros config line cModel H. unfold shouldSkipLine.
    change (ApexDoc.ENUM ++ " ") with "enum ".
    change (ApexDoc.CLASS ++ " ") with "class ".
    change (ApexDoc.INTERFACE ++ " ") with "interface ".
    destruct H as [-> | [-> | ->]]; simpl;
      rewrite ?andb_false_r; simpl; rewrite ?andb_false_r; reflexivity.
  - intros config. unfold shouldSkipLine.
    rewrite falsy_getScope.
    destruct (getScope config "global class Foo {"); reflexivity.
Qed.

Lemma C1_declaration_lines_are_kept_witness :
  (startsWith (toLowerCase "class Inner {") "enum " = true \/
   startsWith (toLowerCase "class Inner {") "class " = true \/
   startsWith (toLowerCase "class Inner {") "interface " = true) /\
  shouldSkipLine ["public"] "class Inner {" None = false.
Proof.
  assert (H : startsWith (toLowerCase "class Inner {") "enum " = true \/
              startsWith (toLowerCase "class Inner {") "class " = true \/
              startsWith (toLowerCase "class Inner {") "interface " = true)
    by (right; left; vm_compute; reflexivity).
  split; [exact H|].
  exact (proj1 C1_declaration_lines_are_kept ["public"] "class Inner {" None H).
Defined.

End ScopeClaims.

(* ------------------------------------------------------------------ *)
(** ** Properties of [stripAnnotations] *)

Section StripClaims.

(** C5 (as the claim words it).  On 102 annotations in a row the loop is
    left through the cap with one annotation still in place, and a second
    call removes it. *)
Lemma C5_not_idempotent_beyond_the_cap :
  String.length (manyAnnotations 102) = 204 /\
  stripAnnotations (manyAnnotations 102) = "@a" /\
  stripAnnotations (stripAnnotations (manyAnnotations 102)) = "" /\
  stripAnnotations (stripAnnotations (manyAnnotations 102))
  <> stripAnnotations (manyAnnotations 102).
Proof.
  assert (H1 : stripAnnotations (manyAnnotations 102) = "@a")
    by (vm_compute; reflexivity).
  assert (H2 : stripAnnotations "@a" = "") by (vm_compute; reflexivity).
  rewrite H1, H2. repeat split. discriminate.
Qed.

(** C5 (amended).  [stripAnnotations] is idempotent on every input shorter
    than 204 code units, on every input whose result no longer satisfies
    the loop condition (it is empty or, trimmed, does not start with [@]),
    and on every input whose result one more stripping step leaves
    unchanged. *)
Theorem C5_stripAnnotations_idempotent_when_stripped :
  forall x : string,
    String.length x < 204 \/
    stripCond (stripAnnotations x) = false \/
    stripStep (stripAnnotations x) = stripAnnotations x ->
    stripAnnotations (stripAnnotations x) = stripAnnotations x.
Proof.
  intros x H.
  assert (H' : stripCond (stripAnnotations x) = false \/
               stripStep (stripAnnotations x) = stripAnnotations x).
  { destruct H as [H | H]; [now apply stripAnnotations_short | exact H]. }
  destruct H' as [H' | H'].
  - now apply stripAnnotations_done.
  - now apply stripAnnotations_fixpoint.
Qed.

Lemma C5_stripAnnotations_idempotent_when_stripped_witness :
  (String.length "@isTest public class Foo {" < 204 \/
   stripCond (stripAnnotations "@isTest public class Foo {") = false \/
   stripStep (stripAnnotations "@isTest public class Foo {")
   = stripAnnotations "@isTest public class Foo {") /\
  stripAnnotations (stripAnnotations "@isTest public class Foo {")
  = stripAnnotations "@isTest public class Foo {".
Proof.
  assert (H : String.length "@isTest public class Foo {" < 204 \/
              stripCond (stripAnnotations "@isTest public class Foo {") = false
              \/ stripStep (stripAnnotations "@isTest public class Foo {")
                 = stripAnnotations "@isTest public class Foo {")
    by (right; left; vm_compute; reflexivity).
  split; [exact H|].
  exact (C5_stripAnnotations_idempotent_when_stripped
           "@isTest public class Foo {" H).
Defined.

(** C6.  The loop of [stripAnnotations] terminates on every line: with the
    counter started at 0, any fuel of 101 or more yields the result.  The
    result is the line after [n <= 101] removal steps, each taken while the
    trimmed line started with [@]; the loop ends either because the trimmed
    line no longer starts with [@], or with [n = 101], when the counter has
    reached the cap of 100, and then the line stripped so far is returned
    as an ordinary result. *)
Theorem C6_stripAnnotations_terminates :
  forall (line : string) (fuel : nat),
    101 <= fuel ->
    stripLoop fuel line 0 = Some (stripAnnotations line) /\
    exists n : nat,
      n <= 101 /\
      stripAnnotations line = Nat.iter n stripStep line /\
      (forall j, j < n -> stripCond (Nat.iter j stripStep line) = true) /\
      (stripCond (stripAnnotations line) = false \/ n = 101).
Proof.
  intros line fuel Hfuel. split.
  - rewrite (@stripLoop_fuel fuel line 0) by lia.
    change (101 - 0) with 101. unfold stripAnnotations.
    destruct (@stripLoop_spec 101 line 0) as (n & _ & -> & _); [lia | lia |].
    reflexivity.
  - apply stripAnnotations_spec.
Qed.

Lemma C6_stripAnnotations_terminates_witness :
  101 <= 150 /\
  stripLoop 150 (manyAnnotations 102) 0
  = Some (stripAnnotations (manyAnnotations 102)) /\
  exists n : nat,
    n <= 101 /\
    stripAnnotations (manyAnnotations 102)
    = Nat.iter n stripStep (manyAnnotations 102) /\
    (forall j, j < n ->
               stripCond (Nat.iter j stripStep (manyAnnotations 102)) = true) /\
    (stripCond (stripAnnotations (manyAnnotations 102)) = false \/ n = 101).
Proof.
  assert (H : 101 <= 150) by lia.
  split; [exact H|].
  exact (C6_stripAnnotations_terminates (manyAnnotations 102) H).
Defined.

End StripClaims.

(* ------------------------------------------------------------------ *)
(** ** Case folding *)

Section CaseFacts.

Lemma allAscii_complete (a : ascii) : In a allAscii.
Proof.
  unfold allAscii. rewrite <- (ascii_nat_embedding a).
  apply in_map, in_seq. pose proof (nat_ascii_bounded a). lia.
Qed.

Lemma forall_ascii (f : ascii -> bool) :
  forallb f allAscii = true -> forall a, f a = true.
Proof.
  intros H a. rewrite forallb_forall in H. apply H, allAscii_complete.
Qed.

(** A lower-cased code unit that is equal to a pattern letter up to case is
    that letter. *)
Lemma canonicalize_toLower (b c : ascii) :
  isLowerLetter c = true ->
  Ascii.eqb (canonicalize (toLower b)) (canonicalize c) = true ->
  toLower b = c.
Proof.
  intros Hc He.
  assert (H : forallb (fun b =>
                forallb (fun c =>
                  implb (isLowerLetter c &&
                         Ascii.eqb (canonicalize (toLower b)) (canonicalize c))
                        (Ascii.eqb (toLower b) c))
                  allAscii) allAscii = true)
    by (vm_compute; reflexivity).
  pose proof (forall_ascii _ (forall_ascii _ H b) c) as Hbc.
  cbv beta in Hbc. rewrite Hc, He in Hbc. simpl in Hbc.
  now apply Ascii.eqb_eq.
Qed.

Lemma canonEq_toLowerCase (w : string) :
  forall lu : string,
    allOf isLowerLetter w = true ->
    canonEq (toLowerCase lu) w = true -> toLowerCase lu = w.
Proof.
  induction w as [|c w IH]; intros [|b lu]; simpl; try discriminate;
    [reflexivity|].
  intros Hw He.
  apply andb_true_iff in Hw. destruct Hw as [Hc Hw].
  apply andb_true_iff in He. destruct He as [Hb He].
  rewrite (canonicalize_toLower b c Hc Hb).
  now rewrite (IH lu Hw He).
Qed.

Lemma toLowerCase_append_inv (l : string) :
  forall x y : string,
    toLowerCase l = x ++ y ->
    exists lx ly, l = lx ++ ly /\ x = toLowerCase lx /\ y = toLowerCase ly.
Proof.
  induction l as [|a l IH]; intros x y H.
  - destruct x; [|discriminate]. simpl in H. subst y.
    exists "", "". auto.
  - destruct x as [|b x]; simpl in H.
    + exists "", (String a l). subst y. auto.
    + injection H as <- H. apply IH in H.
      destruct H as (lx & ly & -> & -> & ->).
      exists (String a lx), ly. auto.
Qed.

Lemma matches_lit_i (w : string) :
  forall p s p' s',
    matches (lit_i w) p s p' s' <->
    exists u, s = u ++ s' /\ canonEq u w = true /\ p' = lastOf p u.
Proof.
  induction w as [|c w IH]; intros p s p' s'; simpl.
  - split.
    + intros H. inversion H; subst. exists "". auto.
    + intros (u & -> & Hu & ->). destruct u; [constructor | discriminate].
  - rewrite matches_seq. split.
    + intros (p1 & s1 & H1 & H2).
      apply matches_class in H1. destruct H1 as (a & -> & Ha & ->).
      apply IH in H2. destruct H2 as (u & -> & Hu & ->).
      exists (String a u). simpl. now rewrite Ha, Hu.
    + intros (u & -> & Hu & ->).
      destruct u as [|a u]; [discriminate|]. simpl in Hu.
      apply andb_true_iff in Hu. destruct Hu as [Ha Hu].
      exists (Some a), (u ++ s'). split.
      * now apply M_Class.
      * apply IH. exists u. auto.
Qed.

End CaseFacts.

(* ------------------------------------------------------------------ *)
(** ** The structural matchers *)

Section StructuralClaims.

Lemma test_classRe (l : string) :
  test classRe l = true <-> wholeWordIn "class" l.
Proof.
  rewrite test_iff. unfold classRe, wholeWordIn. split.
  - intros (pre & suf & p' & s' & -> & Hm).
    apply matches_seq in Hm. destruct Hm as (p1 & s1 & H1 & Hm).
    apply matches_star_class in H1. destruct H1 as (u1 & -> & _ & ->).
    apply matches_seq in Hm. destruct Hm as (p2 & s2 & H2 & Hm).
    apply matches_wordb in H2. destruct H2 as (-> & -> & Hb1).
    apply matches_seq in Hm. destruct Hm as (p3 & s3 & H3 & Hm).
    apply (matches_lit "class") in H3. destruct H3 as [-> ->].
    apply matches_seq in Hm. destruct Hm as (p4 & s4 & H4 & _).
    apply matches_wordb in H4. destruct H4 as (-> & -> & Hb2).
    exists (pre ++ u1), s3. rewrite lastOf_append, append_assoc.
    split; [reflexivity|]. split.
    + unfold atBoundary in Hb1. simpl in Hb1.
      now destruct (isWordOpt (lastOf (lastOf None pre) u1)).
    + unfold atBoundary in Hb2. simpl in Hb2.
      now destruct (isWordOpt (head s3)).
  - intros (pre & post & -> & Hpre & Hpost).
    exists pre, ("class" ++ post), (Some "s"%char), post.
    split; [reflexivity|].
    apply matches_seq. exists (lastOf None pre), ("class" ++ post). split.
    { apply matches_star_class. exists "". auto. }
    apply matches_seq. exists (lastOf None pre), ("class" ++ post). split.
    { apply matches_wordb. repeat split.
      unfold atBoundary. now rewrite Hpre. }
    apply matches_seq. exists (Some "s"%char), post. split.
    { apply (matches_lit "class"). auto. }
    apply matches_seq. exists (Some "s"%char), post. split.
    { apply matches_wordb. repeat split.
      unfold atBoundary. now rewrite Hpost. }
    apply matches_star_class. exists "". auto.
Qed.

Lemma test_interfaceRe (line : string) :
  test interfaceRe (toLowerCase line) = true <->
  wordThenSpaceIn "interface" (toLowerCase line).
Proof.
  rewrite test_iff. unfold interfaceRe, wordThenSpaceIn. split.
  - intros (pre & suf & p' & s' & E & Hm).
    apply matches_seq in Hm. destruct Hm as (p1 & s1 & H1 & Hm).
    apply matches_seq in Hm. destruct Hm as (p2 & s2 & H2 & Hm).
    apply matches_wordb in H2. destruct H2 as (-> & -> & Hb).
    apply matches_seq in Hm. destruct Hm as (p3 & s3 & H3 & H4).
    apply matches_lit_i in H3. destruct H3 as (u & -> & Hu & ->).
    apply matches_class in H4. destruct H4 as (c & -> & Hc & ->).
    apply matches_prefix in H1. destruct H1 as (o & -> & ->).
    rewrite <- append_assoc in E. rewrite <- lastOf_append in Hb.
    destruct (toLowerCase_append_inv _ _ _ E) as (l1 & l2 & _ & _ & E2).
    symmetry in E2.
    destruct (toLowerCase_append_inv _ _ _ E2) as (lu & l3 & _ & Eu & _).
    subst u. apply canonEq_toLowerCase in Hu; [|reflexivity].
    rewrite Hu in *.
    exists (pre ++ o), c, s'. split; [exact E|]. split; [|exact Hc].
    unfold atBoundary in Hb. simpl in Hb.
    now destruct (isWordOpt (lastOf None (pre ++ o))).
  - intros (pre & c & post & E & Hpre & Hc).
    exists pre, ("interface" ++ String c post), (Some c), post.
    split; [exact E|].
    apply matches_seq.
    exists (lastOf None pre), ("interface" ++ String c post).
    split; [apply M_OptNone|].
    apply matches_seq.
    exists (lastOf None pre), ("interface" ++ String c post). split.
    { apply matches_wordb. repeat split.
      unfold atBoundary. now rewrite Hpre. }
    apply matches_seq. exists (Some "e"%char), (String c post). split.
    { apply matches_lit_i. exists "interface". auto. }
    now apply M_Class.
Qed.

(** C7 (as the claim words it).  The line [interface] contains the whole
    word [interface] and is not classified as a declaration, because
    nothing follows the keyword. *)
Lemma C7_interface_needs_trailing_space :
  wholeWordIn "interface" (toLowerCase "interface") /\
  isClassOrInterface "interface" = false /\
  isClassOrInterface "public interface{" = false.
Proof.
  split; [|split; vm_compute; reflexivity].
  exists "", "". repeat split.
Qed.

(** C7 (amended).  [isClassOrInterface] is true exactly when the lower-cased
    line contains [class] as a whole word anywhere, or contains [interface]
    anywhere at the start of a word and immediately followed by a
    white-space character. *)
Theorem C7_isClassOrInterface_characterised :
  forall line : string,
    isClassOrInterface line = true <->
    wholeWordIn "class" (toLowerCase line) \/
    wordThenSpaceIn "interface" (toLowerCase line).
Proof.
  intros line. unfold isClassOrInterface.
  rewrite <- test_classRe, <- test_interfaceRe.
  destruct (test classRe (toLowerCase line)),
           (test interfaceRe (toLowerCase line)); simpl;
    intuition discriminate.
Qed.

Lemma C7_isClassOrInterface_characterised_witness :
  wordThenSpaceIn "interface" (toLowerCase "public Interface Shape {") /\
  isClassOrInterface "public Interface Shape {" = true.
Proof.
  assert (H : wordThenSpaceIn "interface"
                              (toLowerCase "public Interface Shape {")).
  { exists "public ", " "%char, "shape {". repeat split. }
  split; [exact H|].
  apply (proj2 (C7_isClassOrInterface_characterised
                  "public Interface Shape {")).
  right. exact H.
Defined.

Lemma test_enumRe (l : string) : test enumRe l = true <-> enumShape l.
Proof.
  rewrite test_iff. unfold enumRe, enumShape, accessModifiers. split.
  - intros (pre & suf & p' & s' & -> & Hm).
    apply matches_seq in Hm. destruct Hm as (p1 & s1 & H1 & Hm).
    apply matches_bol in H1. destruct H1 as (-> & -> & Hp).
    apply lastOf_none in Hp. subst pre. change ("" ++ suf) with suf.
    apply matches_seq in Hm. destruct Hm as (p2 & s2 & H2 & Hm).
    apply matches_seq in Hm. destruct Hm as (p3 & s3 & H3 & Hm).
    apply (matches_lit "enum") in H3. destruct H3 as [-> ->].
    apply matches_seq in Hm. destruct Hm as (p4 & s4 & H4 & _).
    apply matches_wordb in H4. destruct H4 as (-> & -> & Hb).
    assert (Hrest : isWordOpt (head s3) = false).
    { unfold atBoundary in Hb. simpl in Hb.
      now destruct (isWordOpt (head s3)). }
    apply matches_opt in H2. destruct H2 as [H2 | [E1 E2]].
    + assert (Hlead : exists m sp,
                 In m ["global"; "public"; "private"] /\ sp <> "" /\
                 allOf isSpace sp = true /\ suf = (m ++ sp) ++ "enum" ++ s3).
      { apply matches_alt in H2. destruct H2 as [H2 | H2];
          [|apply matches_alt in H2; destruct H2 as [H2 | H2]];
          apply matches_lit_spaces in H2;
          destruct H2 as (sp & Hne & Hsp & -> & _);
          eexists _, sp; (split; [|split; [exact Hne | split;
                                                     [exact Hsp | reflexivity]]]);
          simpl; auto. }
      destruct Hlead as (m & sp & Hin & Hne & Hsp & ->).
      exists (m ++ sp), s3. split; [reflexivity|]. split; [exact Hrest|].
      right. exists m, sp. auto.
    + subst suf. exists "", s3. auto.
  - intros (lead & rest & -> & Hrest & Hlead).
    exists "", (lead ++ "enum" ++ rest), (Some "m"%char), rest.
    split; [reflexivity|]. simpl lastOf.
    assert (Htail : forall p,
               matches (Seq (lit "enum") (Seq WordB (Star dot)))
                       p ("enum" ++ rest) (Some "m"%char) rest).
    { intros p. apply matches_seq. exists (Some "m"%char), rest. split.
      - apply (matches_lit "enum"). auto.
      - apply matches_seq. exists (Some "m"%char), rest. split.
        + apply matches_wordb. repeat split.
          unfold atBoundary. now rewrite Hrest.
        + apply matches_star_class. exists "". auto. }
    apply matches_seq. exists None, (lead ++ "enum" ++ rest). split.
    { now apply matches_bol. }
    destruct Hlead as [-> | (m & sp & Hin & Hne & Hsp & ->)].
    + apply matches_seq. exists None, ("enum" ++ rest). split.
      * apply M_OptNone.
      * apply Htail.
    + apply matches_seq.
      exists (lastOf None (m ++ sp)), ("enum" ++ rest). split; [|apply Htail].
      apply M_OptSome.
      assert (Hm : matches (Seq (lit m) (Plus ws)) None
                           ((m ++ sp) ++ "enum" ++ rest)
                           (lastOf None (m ++ sp)) ("enum" ++ rest)).
      { apply matches_lit_spaces. exists sp. auto. }
      destruct Hin as [<- | [<- | [<- | []]]].
      * now apply M_AltL.
      * now apply M_AltR, M_AltL.
      * now apply M_AltR, M_AltR.
Qed.

(** C8.  [isEnum] strips the leading annotations and is then true exactly
    when what is left has the shape of an enum declaration: an optional
    access modifier ([global], [public] or [private]) with white space after
    it, the keyword [enum] at that position, and no word character right
    after the keyword.  [public enum Color { RED, BLUE }] is an enum
    declaration and [public Enumerator getEnum()] is not. *)
Theorem C8_isEnum_characterised :
  (forall line : string,
      isEnum line = true <-> enumShape (stripAnnotations line))
  /\ isEnum "public enum Color { RED, BLUE }" = true
  /\ isEnum "public Enumerator getEnum()" = false.
Proof.
  split; [|split; vm_compute; reflexivity].
  intros line. unfold isEnum. rewrite <- test_enumRe.
  destruct (test enumRe (stripAnnotations line)); intuition discriminate.
Qed.

Lemma C8_isEnum_characterised_witness :
  enumShape (stripAnnotations "@isTest private  enum Suit { CLUBS }") /\
  isEnum "@isTest private  enum Suit { CLUBS }" = true.
Proof.
  assert (H : enumShape
                (stripAnnotations "@isTest private  enum Suit { CLUBS }")).
  { exists "private  ", " Suit { CLUBS }".
    split; [vm_compute; reflexivity|]. split; [reflexivity|].
    right. exists "private", "  ".
    split; [simpl; auto|]. split; [discriminate|].
    split; reflexivity. }
  split; [exact H|].
  exact (proj2 (proj1 C8_isEnum_characterised
                      "@isTest private  enum Suit { CLUBS }") H).
Defined.

End StructuralClaims.

(* ------------------------------------------------------------------ *)
(** ** [previousWord] *)

Section PreviousWord.














End PreviousWord.

(* ------------------------------------------------------------------ *)
(** ** Worked examples *)

Section Examples.

Example stripAnnotations_two_annotations :
  stripAnnotations "@isTest(SeeAllData=true) @Deprecated public class Foo"
  = "public class Foo".
Proof. vm_compute. reflexivity. Qed.

Example stripAnnotations_malformed :
  stripAnnotations "  @ foo" = "@ foo".
Proof. vm_compute. reflexivity. Qed.

Example getScope_static_testmethod :
  getScope ["testmethod"] "static testmethod void run()" = Some "testmethod".
Proof. vm_compute. reflexivity. Qed.

Example getScope_collection_return :
  getScope ["private"] "List<String> names()" = Some "private".
Proof. vm_compute. reflexivity. Qed.

Example shouldSkipLine_constructor :
  shouldSkipLine ["public"] "Foo(Integer x) {"
                 (Some (mkClassModel "Outer.Foo" false)) = false.
Proof. vm_compute. reflexivity. Qed.

Example shouldSkipLine_interface_method :
  shouldSkipLine ["public"] "Integer area();"
                 (Some (mkClassModel "Shape" true)) = false.
Proof. vm_compute. reflexivity. Qed.

Example shouldSkipLine_plain_statement :
  shouldSkipLine ["public"] "x = y + 1;" None = true.
Proof. vm_compute. reflexivity. Qed.

End Examples.

(* ------------------------------------------------------------------ *)
(** ** [last] and [countChars] *)

Section TokenUtilities.

(** X1.  [last] returns the final element of every non-empty array (the
    length test of the source only separates the one-element case) and
    [undefined] exactly for the empty array. *)
Theorem X1_last_is_the_final_element :
  (forall (T : Type) (xs : list T) (x : T), last (xs ++ [x]) = Some x) /\
  (forall (T : Type) (arr : list T), last arr = None <-> arr = []).
Proof.
  assert (H : forall (T : Type) (xs : list T) (x : T),
             last (xs ++ [x]) = Some x).
  { intros T xs x. unfold last. rewrite length_app. simpl List.length.
    destruct (Nat.ltb_spec 1 (List.length xs + 1)).
    - replace (List.length xs + 1 - 1) with (List.length xs + 0) by lia.
      now rewrite nth_error_app2, Nat.add_comm, Nat.add_sub by lia.
    - destruct xs; [reflexivity | simpl in *; lia]. }
  split; [exact H|].
  intros T arr. split; [|now intros ->].
  destruct arr as [|a arr] using rev_ind; [reflexivity|].
  rewrite H. discriminate.
Qed.

Lemma get_append_cons (pre : string) (a : ascii) (s : string) :
  String.get (String.length pre) (pre ++ String a s) = Some a.
Proof. induction pre as [|b pre IH]; simpl; [reflexivity | exact IH]. Qed.

(** The loop counts the occurrences in what is left of the string. *)
Lemma countFrom_occurrences (char s : string) :
  forall (pre : string) (count : nat),
    countFrom (pre ++ s) char (String.length pre) (String.length s) count
    = count + occurrences char s.
Proof.
  induction s as [|a s IH]; intros pre count;
    cbn [countFrom String.length occurrences]; [lia|].
  unfold charAtStr, charAt. rewrite get_append_cons.
  replace (pre ++ String a s) with ((pre ++ String a "") ++ s)
    by (rewrite append_assoc; reflexivity).
  replace (S (String.length pre)) with (String.length (pre ++ String a ""))
    by (rewrite length_append; simpl; lia).
  rewrite IH. destruct (String.eqb (String a "") char); lia.
Qed.

Lemma countChars_occurrences (str char : string) :
  countChars str char = occurrences char str.
Proof. exact (countFrom_occurrences char str "" 0). Qed.

Lemma occurrences_append (char s t : string) :
  occurrences char (s ++ t) = occurrences char s + occurrences char t.
Proof. induction s as [|a s IH]; simpl; [reflexivity | rewrite IH; lia]. Qed.

(** X2.  Counting is additive over concatenation. *)
Theorem X2_countChars_append :
  forall s t char : string,
    countChars (s ++ t) char = countChars s char + countChars t char.
Proof.
  intros s t char. rewrite !countChars_occurrences. apply occurrences_append.
Qed.

(** X3.  The count never exceeds the length of the string, and it is 0
    whenever the second argument is not exactly one code unit long (the
    empty string or a longer string is never equal to [charAt(i)]). *)
Theorem X3_countChars_bounds :
  forall str char : string,
    countChars str char <= String.length str /\
    (String.length char <> 1 -> countChars str char = 0).
Proof.
  intros str char. rewrite countChars_occurrences. split.
  - induction str as [|a s IH]; cbn [occurrences String.length]; [lia|].
    destruct (String.eqb (String a "") char); lia.
  - intros Hlen. induction str as [|a s IH]; cbn [occurrences];
      [reflexivity|].
    destruct (String.eqb_spec (String a "") char) as [<- | _];
      [simpl in Hlen; lia | exact IH].
Qed.

Lemma X3_countChars_bounds_witness :
  String.length "{}" <> 1 /\
  countChars "{{a}}" "{}" <= String.length "{{a}}" /\
  countChars "{{a}}" "{}" = 0.
Proof.
  assert (H : String.length "{}" <> 1) by (simpl; lia).
  split; [exact H|]. split.
  - exact (proj1 (X3_countChars_bounds "{{a}}" "{}")).
  - exact (proj2 (X3_countChars_bounds "{{a}}" "{}") H).
Defined.

Lemma startsWith_single (a c : ascii) (s : string) :
  startsWith (String a s) (String c "") = String.eqb (String a "") (String c "").
Proof.
  unfold startsWith. simpl.
  destruct (ascii_dec c a) as [-> | Hne].
  - rewrite Ascii.eqb_refl. now destruct s.
  - destruct (Ascii.eqb_spec a c); [congruence | reflexivity].
Qed.

(** X4.  For a one-character second argument the count is 0 exactly when
    [str.includes(char)] is false. *)
Theorem X4_countChars_zero_iff_absent :
  forall (str : string) (c : ascii),
    countChars str (String c "") = 0 <-> includes str (String c "") = false.
Proof.
  intros str c. rewrite countChars_occurrences.
  induction str as [|a s IH].
  - simpl. split; reflexivity.
  - cbn [occurrences includes]. rewrite startsWith_single.
    destruct (String.eqb (String a "") (String c "")); simpl.
    + split; [lia | discriminate].
    + exact IH.
Qed.

End TokenUtilities.

(* ------------------------------------------------------------------ *)
(** ** [isURL] *)

Section Url.

Lemma test_urlRe (u : string) : test urlRe u = true <-> urlShape u.
Proof.
  rewrite test_iff. unfold urlRe, urlShape. split.
  - intros (pre & suf & p' & s' & -> & Hm).
    apply matches_seq in Hm. destruct Hm as (p1 & s1 & H1 & Hm).
    apply matches_bol in H1. destruct H1 as (-> & -> & Hp).
    apply lastOf_none in Hp. subst pre. change ("" ++ suf) with suf.
    apply matches_seq in Hm. destruct Hm as (p2 & s2 & H2 & Hm).
    apply matches_seq in H2. destruct H2 as (p3 & s3 & H3 & H4).
    apply (matches_lit "http") in H3. destruct H3 as [-> ->].
    apply matches_seq in Hm. destruct Hm as (p5 & s5 & H5 & Hm).
    apply (matches_lit "://") in H5. destruct H5 as [E5 ->].
    apply matches_seq in Hm. destruct Hm as (p6 & s6 & H6 & H7).
    apply matches_star_class in H6. destruct H6 as (body & -> & Hbody & ->).
    apply matches_class in H7. destruct H7 as (c & -> & Hc & ->).
    apply matches_opt in H4. destruct H4 as [H4 | [E4 _]].
    + apply matches_chr in H4. destruct H4 as [-> _]. subst s2.
      exists "https", body, c, s'. auto.
    + subst s2 s3. exists "http", body, c, s'. auto.
  - intros (scheme & body & c & rest & Hs & -> & Hbody & Hc).
    exists "", (scheme ++ "://" ++ body ++ String c rest), (Some c), rest.
    split; [reflexivity|]. simpl lastOf.
    apply matches_seq. eexists None, _. split; [now apply matches_bol|].
    apply matches_seq.
    exists (lastOf None scheme), ("://" ++ body ++ String c rest). split.
    { destruct Hs as [-> | ->].
      - apply matches_seq. eexists _, _. split.
        + apply (matches_lit "http"). split; reflexivity.
        + apply M_OptNone.
      - apply matches_seq. eexists _, _. split.
        + apply (matches_lit "http"). split; reflexivity.
        + apply M_OptSome. now apply matches_chr. }
    apply matches_seq. eexists _, _. split.
    { apply (matches_lit "://"). split; reflexivity. }
    apply matches_seq. eexists _, _. split.
    { apply matches_star_class. exists body. auto. }
    simpl. now apply M_Class.
Qed.

Lemma urlShape_nonempty (u : string) : urlShape u -> u <> "".
Proof.
  intros (scheme & body & c & rest & [-> | ->] & -> & _); discriminate.
Qed.

Lemma isURL_shape (str : string) : isURL str = true <-> urlShape (trim str).
Proof.
  unfold isURL. destruct str as [|a s].
  - simpl. split; [discriminate|].
    intros H. now apply urlShape_nonempty in H.
  - cbn [truthy negb]. apply test_urlRe.
Qed.

(** X5.  [isURL] is true exactly when the trimmed string starts with
    [http://] or [https://], followed by a (possibly empty) run of the
    characters of the first class and one character of the second class;
    nothing is required of the text after that. *)
Theorem X5_isURL_characterised :
  forall str : string, isURL str = true <-> urlShape (trim str).
Proof. exact isURL_shape. Qed.

Lemma X5_isURL_characterised_witness :
  urlShape (trim "  https://example.com/path?q=1 ") /\
  isURL "  https://example.com/path?q=1 " = true.
Proof.
  assert (H : urlShape (trim "  https://example.com/path?q=1 ")).
  { exists "https", "example.com/path?q=", "1"%char, "".
    split; [now right|]. split; [vm_compute; reflexivity|].
    split; vm_compute; reflexivity. }
  split; [exact H|].
  exact (proj2 (X5_isURL_characterised "  https://example.com/path?q=1 ") H).
Defined.

(** X6.  White space around the string does not matter: [isURL] gives the
    same answer for a string and for its trimmed form. *)
Theorem X6_isURL_ignores_surrounding_space :
  forall str : string, isURL (trim str) = isURL str.
Proof.
  intros str. unfold isURL.
  destruct str as [|a s]; [reflexivity|].
  cbn [truthy negb]. rewrite trim_idempotent.
  destruct (trim (String a s)) eqn:E; reflexivity.
Qed.

Lemma trimEnd_is_prefix (x : string) : exists w, x = trimEnd x ++ w.
Proof.
  induction x as [|a x [w IH]]; [now exists ""|].
  simpl. destruct (trimEnd x) as [|b t].
  - destruct (isSpace a).
    + now exists (String a x).
    + exists x. reflexivity.
  - exists w. rewrite IH at 1. reflexivity.
Qed.

Lemma trimStart_append (s t : string) :
  trimStart s <> "" -> trimStart (s ++ t) = trimStart s ++ t.
Proof.
  induction s as [|a s IH]; simpl; [congruence|].
  destruct (isSpace a); [exact IH | reflexivity].
Qed.

Lemma trimEnd_cons (a : ascii) (x : string) :
  trimEnd (String a x) =
  match trimEnd x with
  | EmptyString => if isSpace a then "" else String a ""
  | t => String a t
  end.
Proof. reflexivity. Qed.

(** Trimming at the end keeps every prefix that ends with a character that
    is not white space. *)
Lemma trimEnd_keeps (m : string) :
  forall (r : string) (c : ascii),
    lastOf None m = Some c -> isSpace c = false ->
    exists r', trimEnd (m ++ r) = m ++ r'.
Proof.
  induction m as [|a m IH]; intros r c Hlast Hc; [discriminate|].
  destruct m as [|b m].
  - simpl in Hlast. injection Hlast as ->. simpl.
    destruct (trimEnd r) as [|d t]; [rewrite Hc|]; eauto.
  - assert (Hl : lastOf None (String b m) = Some c) by exact Hlast.
    destruct (IH r c Hl Hc) as [r' Hr'].
    exists r'. change (String a (String b m) ++ r)
      with (String a (String b m ++ r)).
    rewrite trimEnd_cons, Hr'. reflexivity.
Qed.

Lemma urlEnd_not_space (c : ascii) : urlEnd c = true -> isSpace c = false.
Proof.
  assert (H : forallb (fun c => implb (urlEnd c) (negb (isSpace c))) allAscii
              = true) by (vm_compute; reflexivity).
  intros Hc. pose proof (forall_ascii _ H c) as Hi. cbv beta in Hi.
  rewrite Hc in Hi. simpl in Hi. now apply negb_true_iff.
Qed.

(** X7.  The pattern is not anchored at the end: when a string is accepted,
    so is every string obtained by appending text to it. *)
Theorem X7_isURL_accepts_any_continuation :
  forall str more : string, isURL str = true -> isURL (str ++ more) = true.
Proof.
  intros str more H.
  apply isURL_shape in H.
  destruct H as (scheme & body & c & rest & Hs & E & Hbody & Hc).
  set (m := scheme ++ "://" ++ body ++ String c "").
  assert (Em : forall r, scheme ++ "://" ++ body ++ String c r = m ++ r).
  { intros r. unfold m. now rewrite !append_assoc. }
  assert (Hlast : lastOf None m = Some c).
  { unfold m. now rewrite !lastOf_append. }
  rewrite Em in E. unfold trim in E.
  destruct (trimEnd_is_prefix (trimStart str)) as [w Hw].
  rewrite E, append_assoc in Hw.
  assert (Hne : trimStart str <> "").
  { rewrite Hw. unfold m. destruct Hs as [-> | ->]; discriminate. }
  destruct (@trimEnd_keeps m ((rest ++ w) ++ more) c Hlast
                           (urlEnd_not_space c Hc)) as [r' Hr'].
  apply isURL_shape. unfold trim.
  rewrite (trimStart_append str more Hne), Hw, append_assoc, Hr'.
  exists scheme, body, c, r'. rewrite Em. auto.
Qed.

Lemma X7_isURL_accepts_any_continuation_witness :
  isURL "https://example.com" = true /\
  isURL ("https://example.com" ++ " is not a URL any more") = true.
Proof.
  assert (H : isURL "https://example.com" = true) by (vm_compute; reflexivity).
  split; [exact H|].
  exact (X7_isURL_accepts_any_continuation
           "https://example.com" " is not a URL any more" H).
Defined.

End Url.

(* ------------------------------------------------------------------ *)
(** ** More about [getScope] and [shouldSkipLine] *)

Section ScopeExtras.

(** X8.  A resolved scope is always one of the configured scopes, in lower
    case: [getScope] never answers with a scope the caller did not ask
    for. *)
Theorem X8_getScope_returns_a_configured_scope :
  forall (config : list string) (line scope : string),
    getScope config line = Some scope ->
    In scope (map toLowerCase config).
Proof.
  intros config line scope. unfold getScope.
  destruct (scopeLoop config line) as [s | l] eqn:E.
  - intros H. injection H as ->.
    apply scopeLoop_inl in E. destruct E as (n & _ & Hnth & _).
    exact (nth_error_In _ _ Hnth).
  - destruct (existsb (String.eqb PRIVATE) config) eqn:Hp; [|discriminate].
    apply includes_private_iff in Hp.
    destruct (implicitPrivate_cases l) as [-> | ->]; [|discriminate].
    intros H. injection H as <-.
    change PRIVATE with (toLowerCase PRIVATE). now apply in_map.
Qed.

Lemma X8_getScope_returns_a_configured_scope_witness :
  getScope ["Public"; "private"] "static Integer count;" = Some "private" /\
  In "private" (map toLowerCase ["Public"; "private"]).
Proof.
  assert (H : getScope ["Public"; "private"] "static Integer count;"
              = Some "private") by (vm_compute; reflexivity).
  split; [exact H|].
  exact (X8_getScope_returns_a_configured_scope
           ["Public"; "private"] "static Integer count;" H).
Defined.

(** X9.  A line for which [getScope] resolves a scope is kept whatever the
    class context, and supplying a class context can only keep more lines:
    a line skipped with a context is also skipped without one. *)
Theorem X9_shouldSkipLine_and_scope :
  (forall (config : list string) (line scope : string)
          (cModel : option ClassModel),
      getScope config line = Some scope ->
      shouldSkipLine config line cModel = false)
  /\ (forall (config : list string) (line : string) (m : ClassModel),
         shouldSkipLine config line (Some m) = true ->
         shouldSkipLine config line None = true).
Proof.
  split.
  - intros config line scope cModel H. unfold shouldSkipLine.
    rewrite falsy_getScope, H. reflexivity.
  - intros config line m. unfold shouldSkipLine.
    destruct (falsy (getScope config line)); [|discriminate].
    destruct (startsWith (toLowerCase line) (ApexDoc.ENUM ++ " "));
      [discriminate|].
    destruct (startsWith (toLowerCase line) (ApexDoc.CLASS ++ " "));
      [discriminate|].
    destruct (startsWith (toLowerCase line) (ApexDoc.INTERFACE ++ " "));
      [discriminate|].
    reflexivity.
Qed.

Lemma X9_shouldSkipLine_and_scope_witness :
  getScope ["public"] "public void run() {" = Some "public" /\
  shouldSkipLine ["public"] "public void run() {" None = false /\
  shouldSkipLine ["public"] "x = y;" (Some (mkClassModel "Foo" false)) = true /\
  shouldSkipLine ["public"] "x = y;" None = true.
Proof.
  assert (H1 : getScope ["public"] "public void run() {" = Some "public")
    by (vm_compute; reflexivity).
  assert (H2 : shouldSkipLine ["public"] "x = y;"
                              (Some (mkClassModel "Foo" false)) = true)
    by (vm_compute; reflexivity).
  split; [exact H1|]. split.
  - exact (proj1 X9_shouldSkipLine_and_scope _ _ _ None H1).
  - split; [exact H2|].
    exact (proj2 X9_shouldSkipLine_and_scope _ _ _ H2).
Defined.

Lemma scopeLoop_append (config more : list string) :
  forall (line scope : string),
    scopeLoop config line = inl scope ->
    scopeLoop (config ++ more)%list line = inl scope.
Proof.
  induction config as [|sc rest IH]; intros line scope; [discriminate|].
  change ((sc :: rest) ++ more)%list with (sc :: (rest ++ more))%list.
  rewrite !scopeLoop_cons.
  destruct (startsWith (normalize line) (toLowerCase sc ++ " "));
    [auto|].
  destruct (String.eqb (toLowerCase sc) TEST_METHOD &&
            startsWith (normalize line) ("static " ++ TEST_METHOD ++ " "));
    [auto|].
  apply IH.
Qed.

(** X10.  The first configured keyword that matches wins: a scope returned
    by the keyword loop stays the answer when further scopes are appended
    to the configuration. *)
Theorem X10_first_configured_match_wins :
  forall (config more : list string) (line scope : string),
    scopeLoop config line = inl scope ->
    getScope config line = Some scope /\
    getScope (config ++ more)%list line = Some scope.
Proof.
  intros config more line scope H. unfold getScope.
  now rewrite (scopeLoop_append config more line H), H.
Qed.

Lemma X10_first_configured_match_wins_witness :
  scopeLoop ["global"; "public"] "public static void run()" = inl "public" /\
  getScope ["global"; "public"] "public static void run()" = Some "public" /\
  getScope (["global"; "public"] ++ ["private"])%list "public static void run()"
  = Some "public".
Proof.
  assert (H : scopeLoop ["global"; "public"] "public static void run()"
              = inl "public") by (vm_compute; reflexivity).
  split; [exact H|].
  exact (X10_first_configured_match_wins
           ["global"; "public"] ["private"] "public static void run()" H).
Defined.

Lemma toLower_idempotent (a : ascii) : toLower (toLower a) = toLower a.
Proof.
  assert (H : forallb (fun a => Ascii.eqb (toLower (toLower a)) (toLower a))
                      allAscii = true) by (vm_compute; reflexivity).
  apply Ascii.eqb_eq. exact (forall_ascii _ H a).
Qed.

Lemma toLowerCase_idempotent (s : string) :
  toLowerCase (toLowerCase s) = toLowerCase s.
Proof.
  induction s as [|a s IH]; simpl; [reflexivity|].
  now rewrite toLower_idempotent, IH.
Qed.

(** X11.  The keyword loop ignores the letter case of the configured
    scopes; the implicit-private fallback does not, it needs the entry
    [private] spelled in lower case.  So lower-casing the configuration
    leaves [getScope] unchanged when the configuration contains [private]
    as such, and can change the answer otherwise. *)
Theorem X11_configuration_letter_case :
  (forall (config : list string) (line : string),
      scopeLoop (map toLowerCase config) line = scopeLoop config line)
  /\ (forall (config : list string) (line : string),
         In "private" config ->
         getScope (map toLowerCase config) line = getScope config line)
  /\ (getScope ["Private"] "static Integer count;" = None /\
      getScope (map toLowerCase ["Private"]) "static Integer count;"
      = Some "private").
Proof.
  assert (H : forall (config : list string) (line : string),
             scopeLoop (map toLowerCase config) line = scopeLoop config line).
  { induction config as [|sc rest IH]; intros line; [reflexivity|].
    cbn [map]. rewrite !scopeLoop_cons, toLowerCase_idempotent.
    now rewrite IH. }
  split; [exact H|]. split; [|split; vm_compute; reflexivity].
  intros config line Hin. unfold getScope. rewrite H.
  destruct (scopeLoop config line) as [s | l]; [reflexivity|].
  assert (H1 : existsb (String.eqb PRIVATE) config = true)
    by now apply includes_private_iff.
  assert (H2 : existsb (String.eqb PRIVATE) (map toLowerCase config) = true).
  { apply includes_private_iff.
    change PRIVATE with (toLowerCase PRIVATE). now apply in_map. }
  now rewrite H1, H2.
Qed.

Lemma X11_configuration_letter_case_witness :
  In "private" ["PUBLIC"; "private"] /\
  getScope (map toLowerCase ["PUBLIC"; "private"]) "Public void run()"
  = getScope ["PUBLIC"; "private"] "Public void run()".
Proof.
  assert (H : In "private" ["PUBLIC"; "private"]) by (simpl; auto).
  split; [exact H|].
  exact (proj1 (proj2 X11_configuration_letter_case)
               ["PUBLIC"; "private"] "Public void run()" H).
Defined.

End ScopeExtras.

(* ------------------------------------------------------------------ *)
(** ** Letter case of the line *)

Section LetterCase.

Lemma ascii_forall_eq (f g : ascii -> bool) :
  forallb (fun x => Bool.eqb (f x) (g x)) allAscii = true ->
  forall a, f a = g a.
Proof. intros H a. apply Bool.eqb_prop. exact (forall_ascii _ H a). Qed.

Lemma isSpace_toLower : forall a, isSpace (toLower a) = isSpace a.
Proof.
  apply (ascii_forall_eq (fun a => isSpace (toLower a)) isSpace).
  vm_compute. reflexivity.
Qed.

Lemma isWord_toLower : forall a, isWord (toLower a) = isWord a.
Proof.
  apply (ascii_forall_eq (fun a => isWord (toLower a)) isWord).
  vm_compute. reflexivity.
Qed.

Lemma annotationArg_toLower :
  forall a, annotationArg (toLower a) = annotationArg a.
Proof.
  apply (ascii_forall_eq (fun a => annotationArg (toLower a)) annotationArg).
  vm_compute. reflexivity.
Qed.

Lemma eqb_at_toLower : forall a, Ascii.eqb "@" (toLower a) = Ascii.eqb "@" a.
Proof.
  apply (ascii_forall_eq (fun a => Ascii.eqb "@" (toLower a)) (Ascii.eqb "@")).
  vm_compute. reflexivity.
Qed.

Lemma eqb_open_toLower : forall a, Ascii.eqb "(" (toLower a) = Ascii.eqb "(" a.
Proof.
  apply (ascii_forall_eq (fun a => Ascii.eqb "(" (toLower a)) (Ascii.eqb "(")).
  vm_compute. reflexivity.
Qed.

Lemma eqb_close_toLower : forall a, Ascii.eqb ")" (toLower a) = Ascii.eqb ")" a.
Proof.
  apply (ascii_forall_eq (fun a => Ascii.eqb ")" (toLower a)) (Ascii.eqb ")")).
  vm_compute. reflexivity.
Qed.

Lemma lowerStable_annotationRe : lowerStable annotationRe.
Proof.
  unfold annotationRe, Plus, chr, wordc, ws. cbn [lowerStable].
  repeat split;
    first [ exact isSpace_toLower | exact isWord_toLower
          | exact annotationArg_toLower | exact eqb_at_toLower
          | exact eqb_open_toLower | exact eqb_close_toLower ].
Qed.

Lemma length_toLowerCase (s : string) :
  String.length (toLowerCase s) = String.length s.
Proof. induction s as [|a s IH]; simpl; [reflexivity | now rewrite IH]. Qed.

Lemma toLowerCase_append (s t : string) :
  toLowerCase (s ++ t) = toLowerCase s ++ toLowerCase t.
Proof. induction s as [|a s IH]; simpl; [reflexivity | now rewrite IH]. Qed.

Lemma atBoundary_toLower (p : option ascii) (s : string) :
  atBoundary (option_map toLower p) (toLowerCase s) = atBoundary p s.
Proof.
  unfold atBoundary. f_equal.
  - destruct p; simpl; [apply isWord_toLower | reflexivity].
  - destruct s; simpl; [reflexivity | apply isWord_toLower].
Qed.

Section LowerMatcher.
Variables (R R' : Type) (g : R -> R').

Lemma orElse_map (x y : option R) :
  orElse (option_map g x) (option_map g y) = option_map g (orElse x y).
Proof. destruct x; reflexivity. Qed.

Lemma iterate_lower (r : regex)
      (IH : forall k k', related g k k' -> forall p s,
            rmatch r (option_map toLower p) (toLowerCase s) k'
            = option_map g (rmatch r p s k))
      (fuel : nat) :
  forall k k', related g k k' -> forall p s,
      iterate (rmatch r) fuel (option_map toLower p) (toLowerCase s) k'
      = option_map g (iterate (rmatch r) fuel p s k).
Proof.
  induction fuel as [|fuel IHf]; intros k k' Hk p s; simpl; [apply Hk|].
  rewrite Hk, <- orElse_map. f_equal.
  apply IH. intros p1 s1. rewrite !length_toLowerCase.
  destruct (Nat.ltb (String.length s1) (String.length s)); [|reflexivity].
  now apply IHf.
Qed.

(** Running the matcher on the lower-cased input is running it on the
    input, when the pattern cannot see the difference. *)
Lemma rmatch_lower (r : regex) :
  lowerStable r ->
  forall k k', related g k k' -> forall p s,
      rmatch r (option_map toLower p) (toLowerCase s) k'
      = option_map g (rmatch r p s k).
Proof.
  induction r as [| f | r1 IH1 r2 IH2 | r1 IH1 r2 IH2 | r IH | r IH | |];
    intros Hr k k' Hk p s.
  - apply Hk.
  - destruct s as [|a s]; simpl; [reflexivity|].
    simpl in Hr. rewrite Hr. destruct (f a); [|reflexivity].
    exact (Hk (Some a) s).
  - destruct Hr as [Hr1 Hr2]. simpl.
    apply (IH1 Hr1). intros p1 s1. now apply (IH2 Hr2).
  - destruct Hr as [Hr1 Hr2]. simpl.
    now rewrite (IH1 Hr1 k k' Hk), (IH2 Hr2 k k' Hk), orElse_map.
  - simpl. simpl in Hr.
    now rewrite (IH Hr k k' Hk), Hk, orElse_map.
  - simpl in Hr.
    change (rmatch (Star r) (option_map toLower p) (toLowerCase s) k')
      with (iterate (rmatch r) (S (String.length (toLowerCase s)))
                    (option_map toLower p) (toLowerCase s) k').
    rewrite length_toLowerCase.
    exact (@iterate_lower r (IH Hr) (S (String.length s)) k k' Hk p s).
  - destruct p; simpl; [reflexivity | apply (Hk None s)].
  - simpl. rewrite atBoundary_toLower.
    destruct (atBoundary p s); [apply Hk | reflexivity].
Qed.

End LowerMatcher.

Lemma matchHere_lower (r : regex) (p : option ascii) (s : string) :
  lowerStable r ->
  matchHere r (option_map toLower p) (toLowerCase s)
  = option_map toLowerCase (matchHere r p s).
Proof.
  intros Hr. unfold matchHere.
  apply (@rmatch_lower string string toLowerCase r Hr).
  intros p1 s1. reflexivity.
Qed.

Lemma search_lower (r : regex) :
  lowerStable r ->
  forall p s,
    search r (option_map toLower p) (toLowerCase s)
    = option_map (fun ab => (toLowerCase (fst ab), toLowerCase (snd ab)))
                 (search r p s).
Proof.
  intros Hr p s. revert p.
  induction s as [|a s IH]; intros p.
  - cbn [search toLowerCase]. change "" with (toLowerCase "") at 1.
    rewrite (@matchHere_lower r p "" Hr).
    destruct (matchHere r p ""); reflexivity.
  - cbn [search toLowerCase].
    change (String (toLower a) (toLowerCase s))
      with (toLowerCase (String a s)).
    rewrite (@matchHere_lower r p (String a s) Hr).
    destruct (matchHere r p (String a s)); [reflexivity|].
    cbn [option_map].
    change (Some (toLower a)) with (option_map toLower (Some a)).
    rewrite IH.
    destruct (search r (Some a) s) as [[pre rest]|]; reflexivity.
Qed.

Lemma replaceFirst_lower (r : regex) (s : string) :
  lowerStable r ->
  replaceFirst r (toLowerCase s) = toLowerCase (replaceFirst r s).
Proof.
  intros Hr. unfold replaceFirst.
  change None with (option_map toLower None) at 1.
  rewrite (@search_lower r Hr None s).
  destruct (search r None s) as [[pre rest]|]; simpl;
    [now rewrite toLowerCase_append | reflexivity].
Qed.

Lemma trimStart_lower (s : string) :
  trimStart (toLowerCase s) = toLowerCase (trimStart s).
Proof.
  induction s as [|a s IH]; simpl; [reflexivity|].
  rewrite isSpace_toLower. destruct (isSpace a); [exact IH | reflexivity].
Qed.

Lemma trimEnd_lower (s : string) :
  trimEnd (toLowerCase s) = toLowerCase (trimEnd s).
Proof.
  induction s as [|a s IH]; simpl; [reflexivity|].
  rewrite IH, isSpace_toLower.
  destruct (trimEnd s); simpl; [destruct (isSpace a)|]; reflexivity.
Qed.

Lemma trim_lower (s : string) : trim (toLowerCase s) = toLowerCase (trim s).
Proof. unfold trim. now rewrite trimStart_lower, trimEnd_lower. Qed.

Lemma eqb_single (x y : ascii) :
  String.eqb (String x "") (String y "") = Ascii.eqb x y.
Proof.
  destruct (Ascii.eqb_spec x y) as [-> | Hne].
  - apply String.eqb_refl.
  - apply String.eqb_neq. congruence.
Qed.

Lemma stripCond_lower (line : string) :
  stripCond (toLowerCase line) = stripCond line.
Proof.
  unfold stripCond. rewrite trim_lower. f_equal.
  - now destruct line.
  - destruct (trim line) as [|a t]; [reflexivity|].
    cbn [toLowerCase]. rewrite !startsWith_single, !eqb_single.
    rewrite !(Ascii.eqb_sym _ "@"%char). apply eqb_at_toLower.
Qed.

Lemma stripStep_lower (line : string) :
  stripStep (toLowerCase line) = toLowerCase (stripStep line).
Proof.
  unfold stripStep. rewrite trim_lower.
  apply replaceFirst_lower, lowerStable_annotationRe.
Qed.

Lemma stripLoop_lower (fuel : nat) :
  forall (line : string) (i : nat),
    stripLoop fuel (toLowerCase line) i
    = option_map toLowerCase (stripLoop fuel line i).
Proof.
  induction fuel as [|fuel IH]; intros line i; [reflexivity|].
  rewrite !stripLoop_unfold, stripCond_lower, stripStep_lower.
  destruct (stripCond line); [|reflexivity].
  destruct (Nat.leb 100 i); [reflexivity | apply IH].
Qed.

Lemma stripAnnotations_lower (line : string) :
  stripAnnotations (toLowerCase line) = toLowerCase (stripAnnotations line).
Proof.
  unfold stripAnnotations. rewrite stripLoop_lower.
  destruct (stripLoop 101 line 0); reflexivity.
Qed.

Lemma normalize_lower (line : string) :
  normalize (toLowerCase line) = normalize line.
Proof.
  unfold normalize.
  now rewrite stripAnnotations_lower, toLowerCase_idempotent.
Qed.

Lemma getScope_lower (config : list string) (line : string) :
  getScope config (toLowerCase line) = getScope config line.
Proof.
  unfold getScope. destruct config as [|sc rest]; [reflexivity|].
  now rewrite !scopeLoop_cons, normalize_lower.
Qed.

(** X12.  For every line whose code units are all below 256 (Latin-1),
    [stripAnnotations] commutes with lower-casing: stripping the lower-cased
    line gives the lower-cased result of stripping the line.  (Not so for
    every UTF-16 line: lower-casing U+212A makes a word character.) *)
Theorem X12_stripAnnotations_commutes_with_toLowerCase :
  forall line : string,
    stripAnnotations (toLowerCase line) = toLowerCase (stripAnnotations line).
Proof. exact stripAnnotations_lower. Qed.

(** X13.  For every line whose code units are all below 256 (Latin-1),
    [getScope] gives the same result for the line and for its lower-cased
    form, and so does [shouldSkipLine] when no class context is supplied;
    [isEnum] does not: it matches the keywords in lower case only.  (The
    first two fail on UTF-16 lines with U+212A after [@].) *)
Theorem X13_scope_is_case_insensitive_in_the_line :
  (forall (config : list string) (line : string),
      getScope config (toLowerCase line) = getScope config line)
  /\ (forall (config : list string) (line : string),
         shouldSkipLine config (toLowerCase line) None
         = shouldSkipLine config line None)
  /\ (isEnum "PUBLIC ENUM Color {" = false /\
      isEnum (toLowerCase "PUBLIC ENUM Color {") = true).
Proof.
  split; [exact getScope_lower|]. split; [|split; vm_compute; reflexivity].
  intros config line. unfold shouldSkipLine.
  now rewrite getScope_lower, toLowerCase_idempotent.
Qed.

End LetterCase.

(* ------------------------------------------------------------------ *)
(** ** More about the annotation stripper and the structural matchers *)

Section StructuralExtras.

Lemma stripStep_length (line : string) :
  String.length (stripStep line) <= String.length line.
Proof.
  unfold stripStep. pose proof (trim_length line) as Ht.
  destruct (replaceFirst_annotation (trim line)) as [[_ ->] | Hr]; lia.
Qed.

(** X14.  [stripAnnotations] only removes text: its result is never longer
    than the line. *)
Theorem X14_stripAnnotations_never_lengthens :
  forall line : string,
    String.length (stripAnnotations line) <= String.length line.
Proof.
  intros line.
  destruct (stripAnnotations_spec line) as (n & _ & -> & _).
  induction n as [|n IH]; simpl; [lia|].
  pose proof (stripStep_length (Nat.iter n stripStep line)). lia.
Qed.

Lemma enumShape_head (l : string) (a : ascii) (rest : string) :
  enumShape l -> l = String a rest -> isSpace a = false.
Proof.
  intros (lead & r & -> & _ & [-> | (m & sp & Hin & _ & _ & ->)]) E.
  - injection E as <- _. reflexivity.
  - destruct Hin as [<- | [<- | [<- | []]]]; injection E as <- _; reflexivity.
Qed.

(** X15.  [isEnum] does not trim: a line that starts with white space and
    has no leading annotation is returned by the stripper as it is, and is
    never an enum declaration. *)
Theorem X15_isEnum_rejects_indented_lines :
  forall (a : ascii) (rest : string),
    isSpace a = true ->
    stripCond (String a rest) = false ->
    stripAnnotations (String a rest) = String a rest /\
    isEnum (String a rest) = false.
Proof.
  intros a rest Ha Hc.
  pose proof (stripAnnotations_done _ Hc) as Hs.
  split; [exact Hs|].
  unfold isEnum. rewrite Hs.
  destruct (test enumRe (String a rest)) eqn:E; [|reflexivity].
  apply test_enumRe in E.
  rewrite (enumShape_head E eq_refl) in Ha. discriminate.
Qed.

Lemma X15_isEnum_rejects_indented_lines_witness :
  isSpace " " = true /\
  stripCond (String " " "   public enum Color { RED }") = false /\
  stripAnnotations (String " " "   public enum Color { RED }")
  = String " " "   public enum Color { RED }" /\
  isEnum (String " " "   public enum Color { RED }") = false.
Proof.
  assert (H1 : isSpace " " = true) by reflexivity.
  assert (H2 : stripCond (String " " "   public enum Color { RED }") = false)
    by (vm_compute; reflexivity).
  split; [exact H1|]. split; [exact H2|].
  exact (X15_isEnum_rejects_indented_lines
           " " "   public enum Color { RED }" H1 H2).
Defined.

(** X16.  The class-or-interface test looks at the whole line: the word
    [class] or [interface], in any letter case, between two spaces anywhere
    in a line makes it a declaration, whatever stands before and after. *)
Theorem X16_isClassOrInterface_anywhere_in_the_line :
  forall pre kw post : string,
    toLowerCase kw = "class" \/ toLowerCase kw = "interface" ->
    isClassOrInterface (pre ++ " " ++ kw ++ " " ++ post) = true.
Proof.
  intros pre kw post Hkw. unfold isClassOrInterface.
  assert (E : toLowerCase (pre ++ " " ++ kw ++ " " ++ post)
              = (toLowerCase pre ++ " ") ++ toLowerCase kw
                ++ String " " (toLowerCase post)).
  { rewrite !toLowerCase_append, append_assoc. reflexivity. }
  assert (Hb : isWordOpt (lastOf None (toLowerCase pre ++ " ")) = false)
    by (rewrite lastOf_append; reflexivity).
  destruct Hkw as [Hk | Hk]; rewrite Hk in E.
  - assert (H : test classRe (toLowerCase (pre ++ " " ++ kw ++ " " ++ post))
                = true).
    { apply test_classRe.
      exists (toLowerCase pre ++ " "), (String " " (toLowerCase post)).
      split; [exact E|]. split; [exact Hb | reflexivity]. }
    now rewrite H.
  - assert (H : test interfaceRe
                     (toLowerCase (pre ++ " " ++ kw ++ " " ++ post)) = true).
    { apply test_interfaceRe.
      exists (toLowerCase pre ++ " "), " "%char, (toLowerCase post).
      split; [exact E|]. split; [exact Hb | reflexivity]. }
    rewrite H. now rewrite orb_true_r.
Qed.

Lemma X16_isClassOrInterface_anywhere_in_the_line_witness :
  (toLowerCase "Class" = "class" \/ toLowerCase "Class" = "interface") /\
  isClassOrInterface ("// see the" ++ " " ++ "Class" ++ " " ++ "comment above")
  = true.
Proof.
  assert (H : toLowerCase "Class" = "class" \/
              toLowerCase "Class" = "interface") by (left; reflexivity).
  split; [exact H|].
  exact (X16_isClassOrInterface_anywhere_in_the_line
           "// see the" "Class" "comment above" H).
Defined.

End StructuralExtras.

(* ------------------------------------------------------------------ *)
(** ** More about [previousWord] *)

Section PreviousWordExtras.






End PreviousWordExtras.

(* ------------------------------------------------------------------ *)
(** ** What one annotation leaves behind *)

Section OneAnnotation.

Variable R : Type.
Implicit Type k : cont R.

Lemma rmatch_chr_hit (c : ascii) p s k :
  rmatch (chr c) p (String c s) k = k (Some c) s.
Proof. unfold chr. cbn [rmatch]. now rewrite Ascii.eqb_refl. Qed.

Lemma rmatch_chr_miss (c a : ascii) p s k :
  a <> c -> rmatch (chr c) p (String a s) k = None.
Proof.
  intros Hne. unfold chr. cbn [rmatch].
  destruct (Ascii.eqb_spec c a); [congruence | reflexivity].
Qed.

Lemma rmatch_chr_end (c : ascii) p k : rmatch (chr c) p "" k = None.
Proof. reflexivity. Qed.

Lemma rmatch_seq_eq (r1 r2 : regex) p s k :
  rmatch (Seq r1 r2) p s k = rmatch r1 p s (fun p' s' => rmatch r2 p' s' k).
Proof. reflexivity. Qed.

Lemma rmatch_opt_eq (r : regex) p s k :
  rmatch (Opt r) p s k = orElse (rmatch r p s k) (k p s).
Proof. reflexivity. Qed.

Lemma rmatch_class_miss (f : ascii -> bool) p s k :
  headNot f s -> rmatch (Class f) p s k = None.
Proof.
  destruct s as [|a s]; cbn [rmatch headNot]; [reflexivity|].
  now intros ->.
Qed.

(** A greedy run over a class takes all of it when the continuation
    accepts what follows. *)
Lemma iterate_class_greedy (f : ascii -> bool) (s' : string) k :
  headNot f s' ->
  forall (u : string) (fuel : nat) (p : option ascii),
    allOf f u = true -> String.length u < fuel ->
    k (lastOf p u) s' <> None ->
    iterate (rmatch (Class f)) fuel p (u ++ s') k = k (lastOf p u) s'.
Proof.
  intros Hs'. set (m := rmatch (R:=R) (Class f)).
  induction u as [|a u IH]; intros fuel p Hu Hfuel Hk.
  - destruct fuel as [|fuel]; [lia|]. cbn [iterate append lastOf].
    unfold m. now rewrite rmatch_class_miss.
  - destruct fuel as [|fuel]; [simpl in Hfuel; lia|].
    cbn [allOf] in Hu. apply andb_true_iff in Hu. destruct Hu as [Ha Hu].
    cbn [iterate append lastOf]. unfold m at 1. cbn [rmatch]. rewrite Ha.
    assert (Hlt : Nat.ltb (String.length (u ++ s'))
                          (String.length (String a (u ++ s'))) = true)
      by (apply Nat.ltb_lt; simpl; lia).
    rewrite Hlt.
    rewrite (IH fuel (Some a) Hu ltac:(simpl in Hfuel; lia) Hk).
    cbn [lastOf] in Hk.
    destruct (k (lastOf (Some a) u) s'); [reflexivity | congruence].
Qed.

Lemma rmatch_star_greedy (f : ascii -> bool) (u s' : string) p k :
  allOf f u = true -> headNot f s' ->
  k (lastOf p u) s' <> None ->
  rmatch (Star (Class f)) p (u ++ s') k = k (lastOf p u) s'.
Proof.
  intros Hu Hs' Hk. cbn [rmatch].
  apply iterate_class_greedy; auto.
  rewrite length_append. lia.
Qed.

Lemma rmatch_plus_greedy (f : ascii -> bool) (u s' : string) p k :
  u <> "" -> allOf f u = true -> headNot f s' ->
  k (lastOf p u) s' <> None ->
  rmatch (Plus (Class f)) p (u ++ s') k = k (lastOf p u) s'.
Proof.
  intros Hne Hu Hs' Hk. destruct u as [|a u]; [congruence|].
  cbn [allOf] in Hu. apply andb_true_iff in Hu. destruct Hu as [Ha Hu].
  unfold Plus. cbn [rmatch append]. rewrite Ha.
  now apply (@rmatch_star_greedy f u s' (Some a) k).
Qed.

End OneAnnotation.

Section OneAnnotationStripped.

Lemma trimEnd_after (m : string) :
  forall (r : string) (c : ascii),
    lastOf None m = Some c -> isSpace c = false ->
    trimEnd (m ++ r) = m ++ trimEnd r.
Proof.
  induction m as [|a m IH]; intros r c Hlast Hc; [discriminate|].
  destruct m as [|b m].
  - simpl in Hlast. injection Hlast as ->.
    cbn [append]. rewrite trimEnd_cons, Hc. now destruct (trimEnd r).
  - assert (Hl : lastOf None (String b m) = Some c) by exact Hlast.
    change (String a (String b m) ++ r) with (String a (String b m ++ r)).
    rewrite trimEnd_cons, (@IH r c Hl Hc). reflexivity.
Qed.

Lemma append_empty (s : string) : s ++ "" = s.
Proof. induction s as [|a s IH]; simpl; [reflexivity | now rewrite IH]. Qed.

Lemma trim_fixed (x : string) (c : ascii) :
  lastOf None x = Some c -> isSpace c = false ->
  headNot isSpace x -> trim x = x.
Proof.
  intros Hlast Hc Hhead. unfold trim.
  assert (Hs : trimStart x = x).
  { destruct x as [|a x]; [reflexivity|]. simpl in Hhead. simpl.
    now rewrite Hhead. }
  rewrite Hs. rewrite <- (append_empty x) at 1.
  rewrite (@trimEnd_after x "" c Hlast Hc). simpl. apply append_empty.
Qed.

Lemma isWord_not_space (a : ascii) : isSpace a = true -> isWord a = false.
Proof.
  assert (H : forallb (fun a => implb (isSpace a) (negb (isWord a))) allAscii
              = true) by (vm_compute; reflexivity).
  intros Ha. pose proof (forall_ascii _ H a) as Hi. cbv beta in Hi.
  rewrite Ha in Hi. simpl in Hi. now apply negb_true_iff.
Qed.

(** The optional argument list of the pattern, the sub-pattern
    [(\([\w=.*''/\s]+\))?]. *)
Lemma annotationRe_unfold :
  annotationRe =
  Seq (chr "@"%char)
      (Seq (Plus wordc)
           (Seq (Star ws)
                (Opt (Seq (chr "("%char)
                          (Seq (Plus (Class annotationArg))
                               (chr ")"%char)))))).
Proof. reflexivity. Qed.

(** The match at the start of [@name], white space and a declaration. *)
Lemma matchHere_plain_annotation (name sp rest : string) :
  name <> "" -> allOf isWord name = true ->
  sp <> "" -> allOf isSpace sp = true ->
  headNot isSpace rest -> headNot (Ascii.eqb "("%char) rest ->
  matchHere annotationRe None ("@" ++ name ++ sp ++ rest) = Some rest.
Proof.
  intros Hname Hw Hsp Hs Hrs Hro.
  assert (HA : forall p,
             rmatch (Opt (Seq (chr "("%char)
                              (Seq (Plus (Class annotationArg))
                                   (chr ")"%char))))
                    p rest (fun _ s' => Some s') = Some rest).
  { intros p. rewrite rmatch_opt_eq, rmatch_seq_eq.
    destruct rest as [|a r]; [now rewrite rmatch_chr_end|].
    cbn [headNot] in Hro. rewrite rmatch_chr_miss; [reflexivity|].
    intros ->. now rewrite Ascii.eqb_refl in Hro. }
  assert (HB : forall p,
             rmatch (Seq (Star ws)
                         (Opt (Seq (chr "("%char)
                                   (Seq (Plus (Class annotationArg))
                                        (chr ")"%char)))))
                    p (sp ++ rest) (fun _ s' => Some s') = Some rest).
  { intros p. rewrite rmatch_seq_eq. unfold ws.
    rewrite rmatch_star_greedy;
      [apply HA | exact Hs | exact Hrs | rewrite HA; discriminate]. }
  unfold matchHere. rewrite annotationRe_unfold.
  change ("@" ++ name ++ sp ++ rest) with (String "@" (name ++ sp ++ rest)).
  rewrite rmatch_seq_eq, rmatch_chr_hit, rmatch_seq_eq.
  assert (Hhead : headNot isWord (sp ++ rest)).
  { destruct sp as [|a sp]; [congruence|]. cbn [allOf] in Hs.
    apply andb_true_iff in Hs. destruct Hs as [Ha _].
    cbn [append headNot]. now apply isWord_not_space. }
  unfold wordc.
  rewrite rmatch_plus_greedy;
    [apply HB | exact Hname | exact Hw | exact Hhead | rewrite HB; discriminate].
Qed.

(** The match at the start of [@name(args)], with optional white space
    before the parenthesis. *)
Lemma matchHere_args_annotation (name sp args rest : string) :
  name <> "" -> allOf isWord name = true ->
  allOf isSpace sp = true ->
  args <> "" -> allOf annotationArg args = true ->
  matchHere annotationRe None
            ("@" ++ name ++ sp ++ "(" ++ args ++ ")" ++ rest)
  = Some rest.
Proof.
  intros Hname Hw Hs Hargs Ha.
  assert (HA : forall p,
             rmatch (Opt (Seq (chr "("%char)
                              (Seq (Plus (Class annotationArg))
                                   (chr ")"%char))))
                    p ("(" ++ args ++ ")" ++ rest) (fun _ s' => Some s')
             = Some rest).
  { intros p. rewrite rmatch_opt_eq, rmatch_seq_eq.
    change ("(" ++ args ++ ")" ++ rest)
      with (String "(" (args ++ String ")" rest)).
    rewrite rmatch_chr_hit, rmatch_seq_eq.
    rewrite rmatch_plus_greedy;
      [ now rewrite rmatch_chr_hit | exact Hargs | exact Ha | reflexivity
      | rewrite rmatch_chr_hit; discriminate ]. }
  assert (HB : forall p,
             rmatch (Seq (Star ws)
                         (Opt (Seq (chr "("%char)
                                   (Seq (Plus (Class annotationArg))
                                        (chr ")"%char)))))
                    p (sp ++ "(" ++ args ++ ")" ++ rest)
                    (fun _ s' => Some s') = Some rest).
  { intros p. rewrite rmatch_seq_eq. unfold ws.
    rewrite rmatch_star_greedy;
      [apply HA | exact Hs | reflexivity | rewrite HA; discriminate]. }
  unfold matchHere. rewrite annotationRe_unfold.
  change ("@" ++ name ++ sp ++ "(" ++ args ++ ")" ++ rest)
    with (String "@" (name ++ sp ++ "(" ++ args ++ ")" ++ rest)).
  rewrite rmatch_seq_eq, rmatch_chr_hit, rmatch_seq_eq.
  assert (Hhead : headNot isWord (sp ++ "(" ++ args ++ ")" ++ rest)).
  { destruct sp as [|a sp]; [reflexivity|]. cbn [allOf] in Hs.
    apply andb_true_iff in Hs. destruct Hs as [Hsa _].
    cbn [append headNot]. now apply isWord_not_space. }
  unfold wordc.
  rewrite rmatch_plus_greedy;
    [apply HB | exact Hname | exact Hw | exact Hhead | rewrite HB; discriminate].
Qed.

(** One pass of the loop on a trimmed line that starts with a match. *)
Lemma stripAnnotations_one (body rest : string) :
  trim (String "@" body) = String "@" body ->
  matchHere annotationRe None (String "@" body) = Some rest ->
  stripCond rest = false ->
  stripAnnotations (String "@" body) = rest.
Proof.
  intros Htrim Hm Hrest.
  assert (Hc : stripCond (String "@" body) = true).
  { unfold stripCond. rewrite Htrim, startsWith_single, eqb_single.
    reflexivity. }
  assert (Hstep : stripStep (String "@" body) = rest).
  { unfold stripStep, replaceFirst. rewrite Htrim.
    cbn [search]. now rewrite Hm. }
  unfold stripAnnotations.
  rewrite stripLoop_unfold, Hc, Hstep. cbn [Nat.leb].
  now rewrite stripLoop_unfold, Hrest.
Qed.

Lemma trimEnd_append_nonempty (m x : string) :
  trimEnd x <> "" -> trimEnd (m ++ x) = m ++ trimEnd x.
Proof.
  intros Hx. induction m as [|a m IH]; [reflexivity|].
  cbn [append]. rewrite trimEnd_cons, IH.
  destruct (m ++ trimEnd x) eqn:E; [|reflexivity].
  destruct m; [simpl in E; congruence | discriminate].
Qed.

Lemma stripAnnotations_plain (name sp : string) (c : ascii) (r : string) :
  name <> "" -> allOf isWord name = true ->
  sp <> "" -> allOf isSpace sp = true ->
  isSpace c = false -> c <> "("%char -> c <> "@"%char ->
  trimEnd (String c r) = String c r ->
  stripAnnotations ("@" ++ name ++ sp ++ String c r) = String c r.
Proof.
  intros Hname Hw Hsp Hs Hc Hopen Hat Hend.
  change ("@" ++ name ++ sp ++ String c r)
    with (String "@" (name ++ sp ++ String c r)).
  apply stripAnnotations_one.
  - unfold trim. cbn [trimStart]. change (isSpace "@") with false. cbv iota.
    change (String "@" (name ++ sp ++ String c r))
      with ("@" ++ name ++ sp ++ String c r).
    rewrite <- !append_assoc.
    rewrite trimEnd_append_nonempty; rewrite Hend; [reflexivity | discriminate].
  - apply matchHere_plain_annotation;
      [exact Hname | exact Hw | exact Hsp | exact Hs | exact Hc | ].
    cbn [headNot]. destruct (Ascii.eqb_spec "("%char c); congruence.
  - unfold stripCond, trim. cbn [trimStart]. rewrite Hc, Hend.
    rewrite startsWith_single, eqb_single.
    destruct (Ascii.eqb_spec c "@"%char); [congruence | reflexivity].
Qed.

Lemma stripAnnotations_args (name sp args rest : string) :
  name <> "" -> allOf isWord name = true ->
  allOf isSpace sp = true ->
  args <> "" -> allOf annotationArg args = true ->
  stripCond rest = false -> trimEnd rest = rest ->
  stripAnnotations ("@" ++ name ++ sp ++ "(" ++ args ++ ")" ++ rest) = rest.
Proof.
  intros Hname Hw Hs Hargs Ha Hrest Hend.
  change ("@" ++ name ++ sp ++ "(" ++ args ++ ")" ++ rest)
    with (String "@" (name ++ sp ++ "(" ++ args ++ ")" ++ rest)).
  apply stripAnnotations_one.
  - unfold trim. cbn [trimStart]. change (isSpace "@") with false. cbv iota.
    change (String "@" (name ++ sp ++ "(" ++ args ++ ")" ++ rest))
      with ("@" ++ name ++ sp ++ "(" ++ args ++ ")" ++ rest).
    replace ("@" ++ name ++ sp ++ "(" ++ args ++ ")" ++ rest)
      with (("@" ++ name ++ sp ++ "(" ++ args ++ ")") ++ rest)
      by (now rewrite !append_assoc).
    rewrite (@trimEnd_after ("@" ++ name ++ sp ++ "(" ++ args ++ ")") rest
                            ")"%char); [now rewrite Hend| |reflexivity].
    change ("@" ++ name ++ sp ++ "(" ++ args ++ ")")
      with (String "@" (name ++ sp ++ "(" ++ args ++ ")")).
    cbn [lastOf]. now rewrite !lastOf_append.
  - now apply matchHere_args_annotation.
  - exact Hrest.
Qed.

(** X18.  An annotation without arguments is removed together with the
    white space after it: for [@name], white space and a declaration that
    starts with neither white space, [(] nor [@] and has no trailing white
    space, the result is the declaration. *)
Theorem X18_stripAnnotations_removes_a_plain_annotation :
  forall (name sp : string) (c : ascii) (r : string),
    name <> "" -> allOf isWord name = true ->
    sp <> "" -> allOf isSpace sp = true ->
    isSpace c = false -> c <> "("%char -> c <> "@"%char ->
    trimEnd (String c r) = String c r ->
    stripAnnotations ("@" ++ name ++ sp ++ String c r) = String c r.
Proof. exact stripAnnotations_plain. Qed.

Lemma X18_stripAnnotations_removes_a_plain_annotation_witness :
  stripAnnotations ("@" ++ "isTest" ++ "  " ++ String "p" "ublic class Foo {")
  = String "p" "ublic class Foo {".
Proof.
  apply X18_stripAnnotations_removes_a_plain_annotation;
    first [discriminate | reflexivity].
Defined.

(** X19.  An annotation with an argument list is removed up to its closing
    parenthesis only: white space may stand before the list but what
    follows the list is returned as it is, leading white space included. *)
Theorem X19_stripAnnotations_keeps_space_after_arguments :
  forall name sp args rest : string,
    name <> "" -> allOf isWord name = true ->
    allOf isSpace sp = true ->
    args <> "" -> allOf annotationArg args = true ->
    stripCond rest = false -> trimEnd rest = rest ->
    stripAnnotations ("@" ++ name ++ sp ++ "(" ++ args ++ ")" ++ rest) = rest.
Proof. exact stripAnnotations_args. Qed.

Lemma X19_stripAnnotations_keeps_space_after_arguments_witness :
  stripAnnotations
    ("@" ++ "isTest" ++ "" ++ "(" ++ "SeeAllData=true" ++ ")"
         ++ " private class FooTest {")
  = " private class FooTest {".
Proof.
  apply X19_stripAnnotations_keeps_space_after_arguments;
    first [discriminate | reflexivity].
Defined.

(** X20.  Because of that white space, [isEnum] is false for every line
    made of an annotation with arguments, white space and a declaration
    (an enum declaration included). *)
Theorem X20_isEnum_after_annotation_arguments :
  forall (name sp args : string) (a : ascii) (rest : string),
    name <> "" -> allOf isWord name = true ->
    allOf isSpace sp = true ->
    args <> "" -> allOf annotationArg args = true ->
    isSpace a = true ->
    stripCond (String a rest) = false ->
    trimEnd (String a rest) = String a rest ->
    isEnum ("@" ++ name ++ sp ++ "(" ++ args ++ ")" ++ String a rest) = false.
Proof.
  intros name sp args a rest Hname Hw Hs Hargs Ha Hsp Hc Hend.
  unfold isEnum.
  rewrite (@stripAnnotations_args name sp args (String a rest))
    by assumption.
  destruct (test enumRe (String a rest)) eqn:E; [|reflexivity].
  apply test_enumRe in E.
  rewrite (enumShape_head E eq_refl) in Hsp. discriminate.
Qed.

Lemma X20_isEnum_after_annotation_arguments_witness :
  isEnum ("@" ++ "SuppressWarnings" ++ "" ++ "(" ++ "'PMD'" ++ ")"
              ++ String " " "public enum Color { RED }") = false.
Proof.
  apply X20_isEnum_after_annotation_arguments;
    first [discriminate | reflexivity].
Defined.

End OneAnnotationStripped.

(* ------------------------------------------------------------------ *)
(** ** The class context of [shouldSkipLine] *)

Section ClassContext.

Lemma last_snoc (T : Type) (xs : list T) (x : T) :
  last (xs ++ [x])%list = Some x.
Proof.
  unfold last. rewrite length_app. simpl List.length.
  destruct (Nat.ltb_spec 1 (List.length xs + 1)).
  - replace (List.length xs + 1 - 1) with (List.length xs + 0) by lia.
    now rewrite nth_error_app2, Nat.add_comm, Nat.add_sub by lia.
  - destruct xs; [reflexivity | simpl in *; lia].
Qed.

Lemma split_no_dot (inner : string) :
  allOf notDot inner = true -> split "."%char inner = [inner].
Proof.
  induction inner as [|a s IH]; intros H; [reflexivity|].
  cbn [allOf] in H. apply andb_true_iff in H. destruct H as [Ha Hs].
  cbn [split]. unfold notDot in Ha. apply negb_true_iff in Ha.
  now rewrite Ha, (IH Hs).
Qed.

Lemma split_dotted (inner : string) :
  allOf notDot inner = true ->
  forall outer : string,
    exists init : list string,
      init <> [] /\
      split "."%char (outer ++ "." ++ inner) = (init ++ [inner])%list.
Proof.
  intros Hin. induction outer as [|a o (init & Hne & IH)].
  - exists [""]. split; [discriminate|].
    change ("" ++ "." ++ inner) with (String "." inner).
    cbn [split]. rewrite Ascii.eqb_refl, (split_no_dot inner Hin). reflexivity.
  - change (String a o ++ "." ++ inner) with (String a (o ++ "." ++ inner)).
    cbn [split]. rewrite IH.
    destruct (Ascii.eqb a "."%char).
    + exists ("" :: init). split; [discriminate | reflexivity].
    + destruct init as [|w init]; [congruence|].
      exists (String a w :: init). split; [discriminate | reflexivity].
Qed.

(** X21.  The class name used for the constructor test is the last
    component of the dotted name of the class context, the whole name when
    it has no dot, and the empty string when there is no class context. *)
Theorem X21_classNameOf_is_the_last_component :
  forall (outer inner : string) (i : bool),
    allOf notDot inner = true ->
    classNameOf (Some (mkClassModel (outer ++ "." ++ inner) i)) = inner /\
    classNameOf (Some (mkClassModel inner i)) = inner /\
    classNameOf None = "".
Proof.
  intros outer inner i Hin. unfold classNameOf. cbn [name].
  destruct (split_dotted inner Hin outer) as (init & _ & ->).
  rewrite last_snoc, (split_no_dot inner Hin). repeat split.
Qed.

Lemma X21_classNameOf_is_the_last_component_witness :
  allOf notDot "Inner" = true /\
  classNameOf (Some (mkClassModel ("ns.Outer" ++ "." ++ "Inner") false))
  = "Inner" /\
  classNameOf (Some (mkClassModel "Inner" false)) = "Inner" /\
  classNameOf None = "".
Proof.
  assert (H : allOf notDot "Inner" = true) by reflexivity.
  split; [exact H|].
  exact (X21_classNameOf_is_the_last_component "ns.Outer" "Inner" false H).
Defined.

Lemma test_constructorRe (cn pre sp post : string) (h : ascii) (t : string) :
  cn = String h t -> isWord h = true ->
  isWordOpt (lastOf None pre) = false ->
  allOf isSpace sp = true ->
  test (constructorRe cn) (pre ++ cn ++ sp ++ "(" ++ post) = true.
Proof.
  intros Hcn Hh Hpre Hsp. apply test_iff.
  exists pre, (cn ++ sp ++ "(" ++ post), (Some "("%char), post.
  split; [reflexivity|]. unfold constructorRe.
  apply matches_seq. eexists _, _. split.
  { apply matches_wordb. split; [reflexivity|]. split; [reflexivity|].
    unfold atBoundary. rewrite Hpre, Hcn. cbn [append head isWordOpt].
    now rewrite Hh. }
  apply matches_seq. eexists _, _. split.
  { apply matches_lit. split; reflexivity. }
  apply matches_seq. eexists _, _. split.
  { apply matches_star_class. exists sp. split; [reflexivity|].
    split; [exact Hsp | reflexivity]. }
  apply matches_chr. split; reflexivity.
Qed.

(** X22.  With a class context, a line in which the class name (an
    identifier) stands at the start of a word and is followed by optional
    white space and an opening parenthesis is kept, wherever in the line
    that happens and whatever the scope configuration. *)
Theorem X22_constructor_lines_are_kept :
  forall (config : list string) (m : ClassModel)
         (pre sp post : string) (h : ascii) (t : string),
    classNameOf (Some m) = String h t ->
    allOf isWord (String h t) = true ->
    isWordOpt (lastOf None pre) = false ->
    allOf isSpace sp = true ->
    shouldSkipLine config (pre ++ String h t ++ sp ++ "(" ++ post) (Some m)
    = false.
Proof.
  intros config m pre sp post h t Hcn Hw Hpre Hsp.
  cbn [allOf] in Hw. apply andb_true_iff in Hw. destruct Hw as [Hh _].
  unfold shouldSkipLine. rewrite Hcn.
  rewrite (@test_constructorRe (String h t) pre sp post h t
                               eq_refl Hh Hpre Hsp).
  cbn [negb]. now rewrite andb_false_r.
Qed.

Lemma X22_constructor_lines_are_kept_witness :
  classNameOf (Some (mkClassModel "Outer.Foo" false)) = String "F" "oo" /\
  allOf isWord (String "F" "oo") = true /\
  isWordOpt (lastOf None "  ") = false /\
  allOf isSpace " " = true /\
  shouldSkipLine ["public"] ("  " ++ String "F" "oo" ++ " " ++ "(" ++ ") {")
                 (Some (mkClassModel "Outer.Foo" false)) = false.
Proof.
  assert (H1 : classNameOf (Some (mkClassModel "Outer.Foo" false))
               = String "F" "oo") by reflexivity.
  assert (H2 : allOf isWord (String "F" "oo") = true) by reflexivity.
  assert (H3 : isWordOpt (lastOf None "  ") = false) by reflexivity.
  assert (H4 : allOf isSpace " " = true) by reflexivity.
  repeat (split; [assumption|]).
  exact (X22_constructor_lines_are_kept
           ["public"] (mkClassModel "Outer.Foo" false) "  " " " ") {"
           H1 H2 H3 H4).
Defined.

Lemma existsb_all_false (A : Type) (f : A -> bool) (l : list A) :
  (forall x, f x = false) -> existsb f l = false.
Proof.
  intros H. induction l as [|x l IH]; simpl; [reflexivity|].
  now rewrite H, IH.
Qed.

(** X23.  Apart from the [static] rule, the implicit-private inference
    needs an opening parenthesis: when no configured keyword matches and
    the normalised line neither starts with [static ] nor contains [(],
    [getScope] resolves nothing, whatever the configuration. *)
Theorem X23_no_parenthesis_no_inference :
  forall (config : list string) (line l : string),
    scopeLoop config line = inr l ->
    startsWith l "static " = false ->
    includes l "(" = false ->
    getScope config line = None.
Proof.
  intros config line l Hl Hstatic Hparen. unfold getScope. rewrite Hl.
  destruct (existsb (String.eqb PRIVATE) config); [|reflexivity].
  unfold implicitPrivate. rewrite Hstatic, Hparen. cbn [andb].
  rewrite !existsb_all_false; [reflexivity | |];
    intros x; apply andb_false_r.
Qed.

Lemma X23_no_parenthesis_no_inference_witness :
  scopeLoop ["private"] "  Map<Id, Account> accountsById;"
  = inr "map<id, account> accountsbyid;" /\
  startsWith "map<id, account> accountsbyid;" "static " = false /\
  includes "map<id, account> accountsbyid;" "(" = false /\
  getScope ["private"] "  Map<Id, Account> accountsById;" = None.
Proof.
  assert (H1 : scopeLoop ["private"] "  Map<Id, Account> accountsById;"
               = inr "map<id, account> accountsbyid;")
    by (vm_compute; reflexivity).
  assert (H2 : startsWith "map<id, account> accountsbyid;" "static " = false)
    by (vm_compute; reflexivity).
  assert (H3 : includes "map<id, account> accountsbyid;" "(" = false)
    by (vm_compute; reflexivity).
  repeat (split; [assumption|]).
  exact (X23_no_parenthesis_no_inference
           ["private"] "  Map<Id, Account> accountsById;" H1 H2 H3).
Defined.

End ClassContext.
